(** * Alumni management system: authentication and data-access slice

    Shallow embedding of the route handlers of the implementation plan
    (registration, login, alumni search) and of the two helper files they
    use (`src/lib/hash.ts`, `src/lib/db.ts`), with the properties the
    specification states about them. *)

From Stdlib Require Import ZArith Ascii String List Bool Lia DecimalString.
From Stdlib Require DecimalZ.
From stdpp Require Import base strings gmap.

Local Open Scope Z_scope.

(** ** The SQL [LIKE] operator

    Both search predicates of the alumni route are `column LIKE ?`.  The
    operator is the one of MySQL: `%` matches any run of characters, `_`
    matches exactly one character, a backslash takes the next character of
    the pattern literally (and stands for itself at the very end of the
    pattern), and every other character is compared under the collation of
    the column, which the specification gives as case-insensitive. *)
Module Like.

(** Modelled from the spec: the collation of `alumni.name` is a schema
    declaration, and the repository has no schema; §4.2 says that matching
    is case-insensitive for the name field.  The comparison is ASCII case
    folding. *)
Definition to_lower (c : ascii) : ascii :=
  let n := N_of_ascii c in
  if ((65 <=? n)%N && (n <=? 90)%N)%bool then ascii_of_N (n + 32) else c.

(** Modelled from the spec: two characters are the same to `LIKE` when
    they are the same letter in either case, the missing collation being
    the case-insensitive one of §4.2. *)
Definition ci_eqb (a b : ascii) : bool := Ascii.eqb (to_lower a) (to_lower b).

Inductive tok : Type :=
| Many
| One
| Lit (c : ascii).

(** Reading a pattern left to right, as the server does. *)
Fixpoint parse (p : string) : list tok :=
  match p with
  | EmptyString => []
  | String c p' =>
      if Ascii.eqb c "\" then
        match p' with
        | EmptyString => [Lit "\"%char]
        | String d p'' => Lit d :: parse p''
        end
      else if Ascii.eqb c "%" then Many :: parse p'
      else if Ascii.eqb c "_" then One :: parse p'
      else Lit c :: parse p'
  end.

Fixpoint matches (p : list tok) (s : string) {struct p} : bool :=
  match p with
  | [] => match s with EmptyString => true | String _ _ => false end
  | Many :: p' =>
      (fix skip (s : string) : bool :=
         matches p' s
         || match s with
            | EmptyString => false
            | String _ s' => skip s'
            end) s
  | One :: p' =>
      match s with
      | EmptyString => false
      | String _ s' => matches p' s'
      end
  | Lit c :: p' =>
      match s with
      | EmptyString => false
      | String d s' => ci_eqb c d && matches p' s'
      end
  end.

(** `value LIKE pattern` *)
Definition like (value pattern : string) : bool := matches (parse pattern) value.

(** The words of the specification: [q] occurs in [s], letters compared
    without regard to case. *)
Fixpoint prefix_ci (q s : string) : bool :=
  match q, s with
  | EmptyString, _ => true
  | String _ _, EmptyString => false
  | String a q', String b s' => ci_eqb a b && prefix_ci q' s'
  end.

Fixpoint contains_ci (q s : string) : bool :=
  prefix_ci q s
  || match s with
     | EmptyString => false
     | String _ s' => contains_ci q s'
     end.

(** [q] occurs in [s] character for character. *)
Fixpoint prefix_of (q s : string) : bool :=
  match q, s with
  | EmptyString, _ => true
  | String _ _, EmptyString => false
  | String a q', String b s' => Ascii.eqb a b && prefix_of q' s'
  end.

Fixpoint contains (q s : string) : bool :=
  prefix_of q s
  || match s with
     | EmptyString => false
     | String _ s' => contains q s'
     end.

(** A character the pattern reader gives a meaning of its own. *)
Definition meta (c : ascii) : bool :=
  Ascii.eqb c "\" || Ascii.eqb c "%" || Ascii.eqb c "_".

Fixpoint plain (q : string) : bool :=
  match q with
  | EmptyString => true
  | String c q' => negb (meta c) && plain q'
  end.

(** The pattern that asks for the characters of [q], one by one. *)
Fixpoint lits (q : string) : list tok :=
  match q with
  | EmptyString => []
  | String c q' => Lit c :: lits q'
  end.

Definition letter (c : ascii) : bool :=
  let n := N_of_ascii c in
  ((65 <=? n)%N && (n <=? 90)%N) || ((97 <=? n)%N && (n <=? 122)%N).

(** No character of [s] is a letter. *)
Fixpoint caseless (s : string) : bool :=
  match s with
  | EmptyString => true
  | String c s' => negb (letter c) && caseless s'
  end.

End Like.

(** ** Values of JavaScript

    What a member of a parsed JSON body, or a value bound to a statement,
    can be.  [JOther] stands for the values that are truthy and are neither
    strings nor integers: arrays, objects, numbers with a fraction. *)
Inductive JsValue : Type :=
| JNull
| JBool (b : bool)
| JNumber (n : Z)
| JString (s : string)
| JOther.

(** ** What the deployment supplies

    What the handlers rely on and the repository does not fix is taken as
    a parameter: the comparison `email = ?` of the `users.email` column
    (its collation, and what the server does with a bound value that is
    not a string), whether the `users` table refuses a second row with an
    email it already has (the schema is not in the repository), the
    Blowfish key schedule inside bcrypt, what a text column keeps of a
    bound value that is not a string, and what a template literal prints
    for an integer that a JavaScript number cannot hold exactly. *)
Class Backend : Type := {
  (** `email = ?` on the `users` table: stored value, bound value. *)
  email_eq : string -> JsValue -> bool;
  (** whether `users.email` carries a uniqueness constraint *)
  unique_email : bool;
  (** cost, 22 salt characters, password: the digest text. *)
  eksblowfish : nat -> string -> string -> string;
  (** the text stored for a bound value that is not a string, [None] when
      the server refuses the statement *)
  coerce : JsValue -> option string;
  (** `${n}` for a stored integer outside the safe range, which reaches
      the handler as the nearest double *)
  unsafe_number_text : Z -> string
}.

Definition string_of_Z (z : Z) : string := NilZero.string_of_int (Z.to_int z).

(** `Number.isSafeInteger` *)
Definition safe_integer (z : Z) : bool :=
  (- 9007199254740991 <=? z) && (z <=? 9007199254740991).

(** `${n}` for the JavaScript number that holds the integer [z]. *)
Definition number_text {B : Backend} (z : Z) : string :=
  if safe_integer z then string_of_Z z else unsafe_number_text z.

(** ** bcryptjs, as `src/lib/hash.ts` uses it *)
Module Bcrypt.

Definition alphabet : string :=
  "./ABCDEFGHIJKLMNOPQRSTUVWXYZabcdefghijklmnopqrstuvwxyz0123456789".

Definition digit64 (z : Z) : ascii :=
  match String.get (Z.to_nat (z mod 64)) alphabet with
  | Some c => c
  | None => "."%char
  end.

(** [n] radix-64 digits of [z], least significant first. *)
Fixpoint radix64 (n : nat) (z : Z) : string :=
  match n with
  | O => EmptyString
  | S n' => String (digit64 z) (radix64 n' (z / 64))
  end.

Definition two_digits (rounds : nat) : string :=
  (if (rounds <? 10)%nat then "0" else "") +:+ string_of_Z (Z.of_nat rounds).

Definition is_digit (c : ascii) : bool :=
  ((48 <=? N_of_ascii c)%N && (N_of_ascii c <=? 57)%N)%bool.

Definition digit_value (c : ascii) : nat := N.to_nat (N_of_ascii c - 48).

(** Modelled from the spec: bcryptjs is a dependency and not part of the
    repository; §4.1 asks for a randomized per-call salt.  The salt is the
    modular-crypt header for the work factor followed by 22 characters
    drawn from the random source. *)
Definition genSalt (rounds : nat) (random : Z) : string :=
  "$2a$" +:+ two_digits rounds +:+ "$" +:+ radix64 22 random.

(** The work factor and the 22 salt characters of a 29 character header. *)
Definition read_salt (salt : string) : option (nat * string) :=
  if negb (String.length salt =? 29)%nat then None
  else if negb (String.eqb (substring 0 4 salt) "$2a$") then None
  else
    match String.get 4 salt, String.get 5 salt, String.get 6 salt with
    | Some d1, Some d0, Some sep =>
        if is_digit d1 && is_digit d0 && Ascii.eqb sep "$"
        then Some ((10 * digit_value d1 + digit_value d0)%nat, substring 7 22 salt)
        else None
    | _, _, _ => None
    end.

(** Modelled from the spec: bcryptjs is a dependency and not part of the
    repository; §4.1 has the salt embedded in the produced hash.  The hash
    is the salt header followed by the digest of the key schedule; a
    malformed salt gives no hash. *)
Definition hash {B : Backend} (password salt : string) : option string :=
  match read_salt salt with
  | Some (cost, salt22) => Some (salt +:+ eksblowfish cost salt22 password)
  | None => None
  end.

(** Modelled from the spec: bcryptjs is a dependency and not part of the
    repository; §4.1 has verification recompute with the salt embedded in
    the hash, compare, and fail closed on a malformed hash. *)
Definition compare {B : Backend} (password h : string) : bool :=
  if negb (String.length h =? 60)%nat then false
  else
    match hash password (substring 0 29 h) with
    | Some h' => String.eqb h' h
    | None => false
    end.

End Bcrypt.

(** ** The persisted tables and the world a handler runs in *)

(** `users(id, name, email, password, graduation_year, major)` *)
Record User : Type := {
  user_id : Z;
  user_name : string;
  user_email : string;
  user_password : string;
  user_graduation_year : option string;
  user_major : option string
}.

(** `type Alumni` of the tracer page, the shape of an `alumni` row. *)
Record Alumni : Type := {
  id : Z;
  name : string;
  graduationYear : Z;
  major : string
}.

(** The four statements the handlers send, with their fixed text. *)
Inductive Statement : Type :=
| SelectUserId
| SelectUserCredentials
| InsertUser
| SearchAlumni.

Definition sql_text (s : Statement) : string :=
  match s with
  | SelectUserId => "SELECT id FROM users WHERE email = ?"
  | SelectUserCredentials => "SELECT id, password FROM users WHERE email = ?"
  | InsertUser =>
      "INSERT INTO users (name, email, password, graduation_year, major) VALUES (?, ?, ?, ?, ?)"
  | SearchAlumni =>
      "SELECT id, name, graduation_year as graduationYear, major FROM alumni WHERE name LIKE ? OR graduation_year LIKE ?"
  end.

(** A bound value; `undefined` is bound as NULL. *)
Definition SqlValue : Type := option JsValue.

(** What leaves the handler towards its collaborators, oldest first. *)
Inductive Event : Type :=
| Query (sql : string) (params : list SqlValue)
| GenSalt (rounds : nat)
| BcryptHash (password salt : string)
| BcryptCompare (password h : string)
| ConsoleError.

Record World : Type := {
  users : list User;
  auto_increment : Z;
  alumni : list Alumni;
  (** whether the next queries fail (connection lost, timeout, ...) *)
  faults : list bool;
  (** the secure random source *)
  random : list Z;
  (** `new Date().getTime()` *)
  clock : Z;
  log : list Event
}.

Definition emit (e : Event) (w : World) : World :=
  {| users := users w; auto_increment := auto_increment w; alumni := alumni w;
     faults := faults w; random := random w; clock := clock w;
     log := log w ++ [e] |}.

Definition step_faults (w : World) : World :=
  {| users := users w; auto_increment := auto_increment w; alumni := alumni w;
     faults := tail (faults w); random := random w; clock := clock w;
     log := log w |}.

Definition step_random (w : World) : World :=
  {| users := users w; auto_increment := auto_increment w; alumni := alumni w;
     faults := faults w; random := tail (random w); clock := clock w;
     log := log w |}.

(** Whether the query about to be sent is one that fails. *)
Definition next_fails (w : World) : bool := hd false (faults w).

Definition add_user (u : User) (w : World) : World :=
  {| users := users w ++ [u]; auto_increment := auto_increment w + 1;
     alumni := alumni w; faults := faults w; random := random w;
     clock := clock w; log := log w |}.

(** ** Handlers: state passing with exceptions *)

Inductive Outcome (A : Type) : Type :=
| Returned (a : A)
| Thrown.
Arguments Returned {A} a.
Arguments Thrown {A}.

Definition Handler (A : Type) : Type := World -> Outcome A * World.

#[export] Instance handler_ret : MRet Handler :=
  fun A (a : A) w => (Returned a, w).

#[export] Instance handler_bind : MBind Handler :=
  fun A B (k : A -> Handler B) (m : Handler A) w =>
    match m w with
    | (Returned a, w') => k a w'
    | (Thrown, w') => (Thrown, w')
    end.

Definition throw {A : Type} : Handler A := fun w => (Thrown, w).

Definition tell (e : Event) : Handler unit := fun w => (Returned tt, emit e w).

(** `try { body } catch (error) { handler }` *)
Definition try_catch {A : Type} (body handler : Handler A) : Handler A :=
  fun w =>
    match body w with
    | (Returned a, w') => (Returned a, w')
    | (Thrown, w') => handler w'
    end.

(** ** `src/lib/db.ts`: the connection pool *)
Module Db.

(** The first component of what `pool.query` resolves to. *)
Inductive Rows : Type :=
| UserIds (ids : list Z)
| UserCredentials (rows : list (Z * string))
| AlumniRows (rows : list Alumni)
| ResultSetHeader (insertId : Z).

Definition length (r : Rows) : nat :=
  match r with
  | UserIds ids => List.length ids
  | UserCredentials rows => List.length rows
  | AlumniRows rows => List.length rows
  | ResultSetHeader _ => 0
  end.

(** The statement a text asks for.  The server is only ever modelled on
    the four texts of the handlers; any other text is refused. *)
Definition prepare (sql : string) : option Statement :=
  if String.eqb sql (sql_text SelectUserId) then Some SelectUserId
  else if String.eqb sql (sql_text SelectUserCredentials) then
    Some SelectUserCredentials
  else if String.eqb sql (sql_text InsertUser) then Some InsertUser
  else if String.eqb sql (sql_text SearchAlumni) then Some SearchAlumni
  else None.

(** `graduation_year` as the text `LIKE` sees. *)
Definition year_text (a : Alumni) : string := string_of_Z (graduationYear a).

(** `WHERE name LIKE ? OR graduation_year LIKE ?` *)
Definition alumni_where (p1 p2 : string) (a : Alumni) : bool :=
  Like.like (name a) p1 || Like.like (year_text a) p2.

(** `WHERE email = ?` *)
Definition email_is {B : Backend} (v : JsValue) (u : User) : bool :=
  email_eq (user_email u) v.

(** What a text column that cannot be NULL keeps of a bound value. *)
Definition text_column {B : Backend} (v : SqlValue) : option string :=
  match v with
  | Some (JString s) => Some s
  | Some JNull | None => None
  | Some x => coerce x
  end.

(** What a text column that can be NULL keeps of a bound value. *)
Definition nullable_column {B : Backend} (v : SqlValue) : option (option string) :=
  match v with
  | Some (JString s) => Some (Some s)
  | Some JNull | None => Some None
  | Some x => Some <$> coerce x
  end.

(** The server executing one statement with its bound values.  Rows come
    back in table order; an insert takes the next auto-increment id, and
    is refused when the table has a uniqueness constraint on the email and
    already holds a row with it.  A comparison with NULL selects nothing;
    a list of values of a shape the handlers never send is rejected. *)
Definition execute {B : Backend} (s : Statement) (params : list SqlValue)
    (w : World) : Outcome Rows * World :=
  match s, params with
  | SelectUserId, [Some v] =>
      (Returned (UserIds (map user_id (List.filter (email_is v) (users w)))), w)
  | SelectUserId, [None] => (Returned (UserIds []), w)
  | SelectUserCredentials, [Some v] =>
      (Returned
         (UserCredentials
            (map (fun u => (user_id u, user_password u))
               (List.filter (email_is v) (users w)))), w)
  | SelectUserCredentials, [None] => (Returned (UserCredentials []), w)
  | InsertUser, [n; e; p; gy; mj] =>
      match text_column n, text_column e, text_column p,
            nullable_column gy, nullable_column mj with
      | Some n', Some e', Some p', Some gy', Some mj' =>
          if unique_email && existsb (email_is (JString e')) (users w)
          then (Thrown, w)
          else
            (Returned (ResultSetHeader (auto_increment w)),
             add_user
               {| user_id := auto_increment w; user_name := n'; user_email := e';
                  user_password := p'; user_graduation_year := gy';
                  user_major := mj' |}
               w)
      | _, _, _, _, _ => (Thrown, w)
      end
  | SearchAlumni, [Some (JString p1); Some (JString p2)] =>
      (Returned (AlumniRows (List.filter (alumni_where p1 p2) (alumni w))), w)
  | _, _ => (Thrown, w)
  end.

(** `pool.query(sql, params)`: the statement text and the values travel
    apart; a failing connection rejects. *)
Definition pool_query {B : Backend} (sql : string) (params : list SqlValue) :
    Handler Rows :=
  fun w =>
    let w1 := step_faults (emit (Query sql params) w) in
    if next_fails w then (Thrown, w1)
    else
      match prepare sql with
      | Some s => execute s params w1
      | None => (Thrown, w1)
      end.

(** The words of the specification for the alumni search: the query text
    occurs in the name, letters compared without regard to case, or occurs
    in the graduation year read as text. *)
Definition spec_match (q : string) (a : Alumni) : bool :=
  Like.contains_ci q (name a) || Like.contains q (year_text a).

Definition spec_search (q : string) (rows : list Alumni) : list Alumni :=
  List.filter (spec_match q) rows.

(** The record shows the text in one of the two searched fields, under the
    comparison the search itself uses. *)
Definition mentions (t : string) (a : Alumni) : bool :=
  Like.contains_ci t (name a) || Like.contains_ci t (year_text a).

(** The record holds the text, character for character, in one of the two
    searched fields. *)
Definition holds (t : string) (a : Alumni) : bool :=
  Like.contains t (name a) || Like.contains t (year_text a).

End Db.

(** ** `src/lib/hash.ts` *)
Module Hash.

Definition genSalt (rounds : nat) : Handler string :=
  fun w =>
    (Returned (Bcrypt.genSalt rounds (hd 0 (random w))),
     step_random (emit (GenSalt rounds) w)).

Definition bcrypt_hash {B : Backend} (password salt : string) : Handler string :=
  fun w =>
    match Bcrypt.hash password salt with
    | Some h => (Returned h, emit (BcryptHash password salt) w)
    | None => (Thrown, emit (BcryptHash password salt) w)
    end.

(** `hashPassword(password)`; bcryptjs rejects a password that is not a
    string. *)
Definition hashPassword {B : Backend} (password : SqlValue) : Handler string :=
  salt ← genSalt 10;
  match password with
  | Some (JString p) => bcrypt_hash p salt
  | _ => throw
  end.

(** `comparePassword(password, hash)`; as above for a password that is
    not a string. *)
Definition comparePassword {B : Backend} (password : SqlValue) (h : string) :
    Handler bool :=
  match password with
  | Some (JString p) =>
      fun w => (Returned (Bcrypt.compare p h), emit (BcryptCompare p h) w)
  | _ => throw
  end.

End Hash.

(** ** Requests and responses *)

(** The body after `request.json()`: the members of the object that came
    out; [None] is a body that does not parse, or parses to `null`. *)
Definition RequestBody : Type := option (gmap string JsValue).

Definition request_json (request : RequestBody) : Handler (gmap string JsValue) :=
  match request with
  | Some body => mret body
  | None => throw
  end.

(** `!x` *)
Definition falsy (x : option JsValue) : bool :=
  match x with
  | None => true
  | Some JNull => true
  | Some (JBool b) => negb b
  | Some (JNumber n) => n =? 0
  | Some (JString s) => String.eqb s ""
  | Some JOther => false
  end.

Inductive Json : Type :=
| JObject (members : list (string * string))
| JRows (rows : Db.Rows).

Record Response : Type := {
  status : Z;
  body : Json;
  headers : list (string * string)
}.

(** `NextResponse.json(data, { status })`, status 200 when not given. *)
Definition NextResponse_json (data : Json) (st : Z) : Response :=
  {| status := st; body := data; headers := [] |}.

Definition headers_append (k v : string) (r : Response) : Response :=
  {| status := status r; body := body r; headers := headers r ++ [(k, v)] |}.

(** `serialize(name, value, { path: "/", httpOnly: true, maxAge: 60 * 60 })`
    of the `cookie` package; the value is URI-encoded, which leaves digits
    and the hyphen of a token as they are. *)
Definition serialize (name value : string) : string :=
  name +:+ "=" +:+ value +:+ "; Max-Age=3600; Path=/; HttpOnly".

(** Whether the text [t] occurs in a member name or a member value of the
    body of [r]. *)
Definition body_shows (t : string) (r : Response) : bool :=
  match body r with
  | JObject members =>
      existsb (fun kv => Like.contains t (fst kv) || Like.contains t (snd kv))
        members
  | JRows _ => false
  end.

Definition date_getTime : Handler Z := fun w => (Returned (clock w), w).

Definition console_error : Handler unit := tell ConsoleError.

(** ** `src/app/api/auth/register/route.ts` *)
Module Register.

Definition POST {B : Backend} (request : RequestBody) : Handler Response :=
  try_catch
    (body ← request_json request;
     let name := body !! "name" in
     let email := body !! "email" in
     let password := body !! "password" in
     let graduationYear := body !! "graduationYear" in
     let major := body !! "major" in
     if falsy name || falsy email || falsy password then
       mret (NextResponse_json (JObject [("error", "Missing fields")]) 400)
     else
       existing ← Db.pool_query "SELECT id FROM users WHERE email = ?" [email];
       if (0 <? Db.length existing)%nat then
         mret (NextResponse_json (JObject [("error", "User already exists")]) 409)
       else
         hashedPassword ← Hash.hashPassword password;
         _ ← Db.pool_query
               "INSERT INTO users (name, email, password, graduation_year, major) VALUES (?, ?, ?, ?, ?)"
               [name; email; Some (JString hashedPassword); graduationYear; major];
         mret (NextResponse_json
                 (JObject [("message", "Registration successful")]) 201))
    (_ ← console_error;
     mret (NextResponse_json (JObject [("error", "Server error")]) 500)).

End Register.

(** ** `src/app/api/auth/login/route.ts` *)
Module Login.

(** `users[0]` with its `id` and `password` *)
Definition first_user (rows : Db.Rows) : option (Z * string) :=
  match rows with
  | Db.UserCredentials (u :: _) => Some u
  | _ => None
  end.

(** The session token: `${user.id}-${new Date().getTime()}` *)
Definition session_token {B : Backend} (user_id now : Z) : string :=
  number_text user_id +:+ "-" +:+ number_text now.

Definition POST {B : Backend} (request : RequestBody) : Handler Response :=
  try_catch
    (body ← request_json request;
     let email := body !! "email" in
     let password := body !! "password" in
     if falsy email || falsy password then
       mret (NextResponse_json
               (JObject [("error", "Email and password are required")]) 400)
     else
       users ← Db.pool_query "SELECT id, password FROM users WHERE email = ?"
                 [email];
       if (Db.length users =? 0)%nat then
         mret (NextResponse_json (JObject [("error", "Invalid credentials")]) 401)
       else
         match first_user users with
         | None => throw
         | Some (user_id, user_password) =>
             isValid ← Hash.comparePassword password user_password;
             if negb isValid then
               mret (NextResponse_json
                       (JObject [("error", "Invalid credentials")]) 401)
             else
               now ← date_getTime;
               let token := session_token user_id now in
               let response :=
                 NextResponse_json (JObject [("message", "Login successful")]) 200 in
               mret (headers_append "Set-Cookie"
                       (serialize "session_token" token) response)
         end)
    (_ ← console_error;
     mret (NextResponse_json (JObject [("error", "Server error")]) 500)).

End Login.

(** ** `src/app/api/alumni-tracer/route.ts` *)
Module AlumniTracer.

(** `searchParams.get("query") || ""` *)
Definition query_or_empty (param : option string) : string :=
  if falsy (JString <$> param) then "" else default "" param.

Definition GET {B : Backend} (param : option string) : Handler Response :=
  try_catch
    (let query := query_or_empty param in
     let sqlQuery :=
       "SELECT id, name, graduation_year as graduationYear, major FROM alumni WHERE name LIKE ? OR graduation_year LIKE ?" in
     let searchTerm := "%" +:+ query +:+ "%" in
     results ← Db.pool_query sqlQuery
                 [Some (JString searchTerm); Some (JString searchTerm)];
     mret (NextResponse_json (JRows results) 200))
    (_ ← console_error;
     mret (NextResponse_json
             (JObject [("error", "Failed to fetch alumni data")]) 500)).

(** The Persistence Gateway operation of the specification: the records
    the route answers with for the query text [q]. *)
Definition searchAlumni {B : Backend} (q : string) (w : World) : option (list Alumni) :=
  match GET (Some q) w with
  | (Returned {| body := JRows (Db.AlumniRows rows) |}, _) => Some rows
  | _ => None
  end.

End AlumniTracer.

(** ** The registration route, await by await

    The route of [Register.POST] cut at its `await`s.  Between two `await`s
    the handler runs alone; at an `await` other requests may run.  The
    login and the search routes send one statement each and read nothing
    of the store after it, so they are kept whole. *)
Module Async.

(** What is left to run of an async function: each [Await] is the work
    from one `await` to the next, which changes the world and decides how
    to go on from the world it found. *)
Inductive Task (A : Type) : Type :=
| Resolved (a : A)
| Rejected
| Await (next : World -> Task A) (effect : World -> World).
Arguments Resolved {A} a.
Arguments Rejected {A}.
Arguments Await {A} next effect.

(** The work up to the next `await`, given as the handler that does it
    and returns what is left. *)
Definition step {A : Type} (m : Handler (Task A)) : Task A :=
  Await
    (fun w => match fst (m w) with Returned t => t | Thrown => Rejected end)
    (fun w => snd (m w)).

(** The function run without any other request in between. *)
Fixpoint run {A : Type} (t : Task A) (w : World) : Outcome A * World :=
  match t with
  | Resolved a => (Returned a, w)
  | Rejected => (Thrown, w)
  | Await next effect => run (next w) (effect w)
  end.

(** One step of a task on the world as it is now; a task that has
    finished stays as it is. *)
Definition advance {A : Type} (t : Task A) (w : World) : Task A * World :=
  match t with
  | Await next effect => (next w, effect w)
  | _ => (t, w)
  end.

(** Two requests on one server: the schedule says, turn by turn, whether
    the first request ([true]) or the second takes its next step. *)
Fixpoint interleave {A : Type} (schedule : list bool) (t1 t2 : Task A)
    (w : World) : Task A * Task A * World :=
  match schedule with
  | [] => (t1, t2, w)
  | true :: rest =>
      interleave rest (fst (advance t1 w)) t2 (snd (advance t1 w))
  | false :: rest =>
      interleave rest t1 (fst (advance t2 w)) (snd (advance t2 w))
  end.

End Async.

Module RegisterAsync.

(** The `catch` of the route, around the work of one step. *)
Definition guarded (m : Handler (Async.Task Response)) :
    Handler (Async.Task Response) :=
  try_catch m
    (_ ← console_error;
     mret (Async.Resolved
             (NextResponse_json (JObject [("error", "Server error")]) 500))).

(** `await pool.query("INSERT ...")` and the return. *)
Definition insert_step {B : Backend} (body : gmap string JsValue)
    (hashedPassword : string) : Async.Task Response :=
  Async.step (guarded
    (_ ← Db.pool_query
           "INSERT INTO users (name, email, password, graduation_year, major) VALUES (?, ?, ?, ?, ?)"
           [body !! "name"; body !! "email"; Some (JString hashedPassword);
            body !! "graduationYear"; body !! "major"];
     mret (Async.Resolved
             (NextResponse_json
                (JObject [("message", "Registration successful")]) 201)))).

(** `bcrypt.hash(password, salt)`, awaited by the route. *)
Definition hash_step {B : Backend} (body : gmap string JsValue) (salt : string) :
    Async.Task Response :=
  Async.step (guarded
    (hashedPassword ←
       match body !! "password" with
       | Some (JString p) => Hash.bcrypt_hash p salt
       | _ => throw
       end;
     mret (insert_step body hashedPassword))).

(** `await bcrypt.genSalt(10)` *)
Definition salt_step {B : Backend} (body : gmap string JsValue) :
    Async.Task Response :=
  Async.step (guarded
    (salt ← Hash.genSalt 10;
     mret (hash_step body salt))).

(** `await pool.query("SELECT ...")` and the test of what came back. *)
Definition lookup_step {B : Backend} (body : gmap string JsValue) :
    Async.Task Response :=
  Async.step (guarded
    (existing ← Db.pool_query "SELECT id FROM users WHERE email = ?"
                  [body !! "email"];
     if (0 <? Db.length existing)%nat then
       mret (Async.Resolved
               (NextResponse_json (JObject [("error", "User already exists")]) 409))
     else mret (salt_step body))).

(** `await request.json()` and the presence test. *)
Definition POST {B : Backend} (request : RequestBody) : Async.Task Response :=
  Async.step (guarded
    (body ← request_json request;
     if falsy (body !! "name") || falsy (body !! "email")
        || falsy (body !! "password") then
       mret (Async.Resolved
               (NextResponse_json (JObject [("error", "Missing fields")]) 400))
     else mret (lookup_step body))).

End RegisterAsync.

(** ** Readings used by the properties *)

(** Whether the [n]-th query from now is one that fails. *)
Definition fails_at (n : nat) (w : World) : bool := nth n (faults w) false.

(** A schedule for two requests of five steps each, in which both take
    their first two steps (parsing the body, looking the email up) before
    either takes its third. *)
Definition both_look_up_first : list bool :=
  [true; true; false; false; true; true; true; false; false; false].

(** Readings of a pattern match used to describe the search. *)
Module LikeEdge.

(** [t] and [s] are the same text up to the case of letters. *)
Fixpoint exact_ci (t s : string) : bool :=
  match t, s with
  | EmptyString, EmptyString => true
  | String a t', String b s' => Like.ci_eqb a b && exact_ci t' s'
  | _, _ => false
  end.

(** [s] ends with [t], up to the case of letters. *)
Fixpoint ends_with_ci (t s : string) : bool :=
  exact_ci t s
  || match s with
     | EmptyString => false
     | String _ s' => ends_with_ci t s'
     end.

Fixpoint underscores (n : nat) : string :=
  match n with
  | O => EmptyString
  | S n' => String "_"%char (underscores n')
  end.

(** Every character of [s] is a decimal digit. *)
Fixpoint all_digits (s : string) : bool :=
  match s with
  | EmptyString => true
  | String c s' => Bcrypt.is_digit c && all_digits s'
  end.

End LikeEdge.

(** ** The pages that call the routes

    The state each page keeps with `useState`, and its handlers. *)
Module Page.

(** What becomes of a `fetch`: the request reaches the route and the
    response comes back, or the request is lost on the way, or the route
    runs and its response is lost. *)
Inductive Fetch : Type :=
| Delivered
| RequestLost
| ResponseLost.

(** `await fetch(...)` followed by `await res.json()`: rejects when the
    request or the response is lost. *)
Definition fetch (net : Fetch) (route : Handler Response) : Handler Response :=
  fun w =>
    match net with
    | Delivered => route w
    | RequestLost => (Thrown, w)
    | ResponseLost => (Thrown, snd (route w))
    end.

(** `JSON.stringify(form)` read back by `request.json()`. *)
Definition json_of_form (form : gmap string string) : RequestBody :=
  Some (JString <$> form).

(** `res.ok` *)
Definition ok (r : Response) : bool := (200 <=? status r) && (status r <=? 299).

(** `data.error`, `undefined` when the body has no such member. *)
Definition data_error (data : Json) : option string :=
  match data with
  | JObject members =>
      snd <$> List.find (fun kv => String.eqb (fst kv) "error") members
  | JRows _ => None
  end.

End Page.

(** `src/app/auth/register/page.tsx` *)
Module RegisterPage.

Record State : Type := {
  form : gmap string string;
  error : option string;
  (** the routes handed to `router.push`, oldest first *)
  pushed : list string
}.

(** The state of the first render. *)
Definition initial : State :=
  {| form :=
       <["name" := ""]> (<["email" := ""]> (<["password" := ""]>
         (<["graduationYear" := ""]> (<["major" := ""]> ∅))));
     error := Some "";
     pushed := [] |}.

(** `handleChange` for an input with the given name and value. *)
Definition handleChange (input_name value : string) (s : State) : State :=
  {| form := <[input_name := value]> (form s); error := error s;
     pushed := pushed s |}.

Definition setError (e : option string) (s : State) : State :=
  {| form := form s; error := e; pushed := pushed s |}.

Definition router_push (route : string) (s : State) : State :=
  {| form := form s; error := error s; pushed := pushed s ++ [route] |}.

Definition handleSubmit {B : Backend} (net : Page.Fetch) (s : State) (w : World) :
    State * World :=
  let s0 := setError (Some "") s in
  match Page.fetch net (Register.POST (Page.json_of_form (form s))) w with
  | (Returned res, w') =>
      let data := body res in
      if negb (Page.ok res) then (setError (Page.data_error data) s0, w')
      else (router_push "/auth/login" s0, w')
  | (Thrown, w') => (setError (Some "An unexpected error occurred") s0, w')
  end.

End RegisterPage.

(** `src/app/auth/login/page.tsx` *)
Module LoginPage.

Record State : Type := {
  form : gmap string string;
  error : option string;
  pushed : list string
}.

Definition initial : State :=
  {| form := <["email" := ""]> (<["password" := ""]> ∅);
     error := Some "";
     pushed := [] |}.

Definition handleChange (input_name value : string) (s : State) : State :=
  {| form := <[input_name := value]> (form s); error := error s;
     pushed := pushed s |}.

Definition setError (e : option string) (s : State) : State :=
  {| form := form s; error := e; pushed := pushed s |}.

Definition router_push (route : string) (s : State) : State :=
  {| form := form s; error := error s; pushed := pushed s ++ [route] |}.

Definition handleSubmit {B : Backend} (net : Page.Fetch) (s : State) (w : World) :
    State * World :=
  let s0 := setError (Some "") s in
  match Page.fetch net (Login.POST (Page.json_of_form (form s))) w with
  | (Returned res, w') =>
      let data := body res in
      if negb (Page.ok res) then (setError (Page.data_error data) s0, w')
      else (router_push "/job-board" s0, w')
  | (Thrown, w') => (setError (Some "An unexpected error occurred") s0, w')
  end.

End LoginPage.

(** `src/app/alumni-tracer/page.tsx` *)
Module AlumniTracerPage.

Record State : Type := {
  query : string;
  (** typed `Alumni[]`, but whatever the response body was *)
  results : Json;
  error : string
}.

Definition initial : State :=
  {| query := ""; results := JRows (Db.AlumniRows []); error := "" |}.

(** `onChange` of the search input *)
Definition setQuery (q : string) (s : State) : State :=
  {| query := q; results := results s; error := error s |}.

(** `handleSearch`; the query text is URI-encoded into the address and
    decoded again by `searchParams.get`. *)
Definition handleSearch {B : Backend} (net : Page.Fetch) (s : State) (w : World) :
    State * World :=
  match Page.fetch net (AlumniTracer.GET (Some (query s))) w with
  | (Returned res, w') =>
      ({| query := query s; results := body res; error := error s |}, w')
  | (Thrown, w') =>
      ({| query := query s; results := results s; error := "Search failed" |}, w')
  end.

End AlumniTracerPage.

(** ** A small deployment to run the handlers on *)
Module Sample.

(** [n] characters of [s], padded with dots. *)
Fixpoint fit (n : nat) (s : string) : string :=
  match n with
  | O => EmptyString
  | S n' =>
      match s with
      | EmptyString => String "."%char (fit n' EmptyString)
      | String c s' => String c (fit n' s')
      end
  end.

(** A stand-in for the key schedule: 31 characters that depend on the
    password and on the salt. *)
Definition digest (cost : nat) (salt password : string) : string :=
  fit 31 (password +:+ salt).

(** A binary collation for the email column, which finds no string equal
    to a value that is not a string; a server that refuses such values for
    its text columns. *)
Definition backend : Backend :=
  {| email_eq := fun stored v =>
       match v with JString e => String.eqb stored e | _ => false end;
     unique_email := false;
     eksblowfish := digest;
     coerce := fun _ => None;
     unsafe_number_text := string_of_Z |}.

(** The same deployment with a uniqueness constraint on `users.email`. *)
Definition constrained : Backend :=
  {| email_eq := email_eq (Backend := backend);
     unique_email := true;
     eksblowfish := digest;
     coerce := fun _ => None;
     unsafe_number_text := string_of_Z |}.

Definition jane_doe : Alumni :=
  {| id := 1; name := "Jane Doe"; graduationYear := 2010; major := "Computer Science" |}.

Definition route_2010 : Alumni :=
  {| id := 2; name := "Route 2010 Club"; graduationYear := 1999; major := "History" |}.

Definition quoted : Alumni :=
  {| id := 3; name := "x' or '1'='1"; graduationYear := 2005; major := "Law" |}.

Definition world : World :=
  {| users := []; auto_increment := 1; alumni := [jane_doe; route_2010];
     faults := []; random := [12345; 67890]; clock := 1700000000000; log := [] |}.

(** The registration of the curl call of the plan. *)
Definition jane : gmap string JsValue :=
  <["name" := JString "Jane Doe"]> (<["email" := JString "jane@example.com"]>
    (<["password" := JString "secure123"]> (<["graduationYear" := JString "2010"]>
      (<["major" := JString "Computer Science"]> ∅)))).

Definition jane_login (password : string) : gmap string JsValue :=
  <["email" := JString "jane@example.com"]> (<["password" := JString password]> ∅).

(** The world after Jane has registered. *)
Definition registered : World :=
  snd (Register.POST (B := backend) (Some jane) world).

(** The same world with another reading of the random source. *)
Definition reseeded (w : World) (r : list Z) : World :=
  {| users := users w; auto_increment := auto_increment w; alumni := alumni w;
     faults := faults w; random := r; clock := clock w; log := log w |}.

End Sample.

(** ** More worlds to run the handlers on *)
Module Demo.

Definition with_faults (fs : list bool) (w : World) : World :=
  {| users := users w; auto_increment := auto_increment w; alumni := alumni w;
     faults := fs; random := random w; clock := clock w; log := log w |}.

(** The hash the sample deployment makes of [p] with the random value [r]. *)
Definition hash_of (p : string) (r : Z) : string :=
  default EmptyString (Bcrypt.hash (B := Sample.backend) p (Bcrypt.genSalt 10 r)).

Definition twin (i : Z) (p : string) : User :=
  {| user_id := i; user_name := "Twin"; user_email := "twin@example.com";
     user_password := hash_of p i; user_graduation_year := None;
     user_major := None |}.

(** Two accounts under one email, as a table without a uniqueness
    constraint can hold them. *)
Definition twins : World :=
  {| users := [twin 1 "first"; twin 2 "second"]; auto_increment := 3;
     alumni := []; faults := []; random := []; clock := 1700000000000;
     log := [] |}.

Definition twin_login (password : string) : gmap string JsValue :=
  <["email" := JString "twin@example.com"]> (<["password" := JString password]> ∅).

(** A login whose password is the number 12345. *)
Definition numeric_login (email : string) : gmap string JsValue :=
  <["email" := JString email]> (<["password" := JNumber 12345]> ∅).

Definition top_ten : Alumni :=
  {| id := 4; name := "Top 10%"; graduationYear := 2012; major := "Economics" |}.

Definition ranked : World :=
  {| users := []; auto_increment := 1;
     alumni := [Sample.jane_doe; top_ten; Sample.route_2010];
     faults := []; random := []; clock := 0; log := [] |}.

(** The alumni table with a record whose name holds the quoted text in
    lower case. *)
Definition quoted_world : World :=
  {| users := []; auto_increment := 1;
     alumni := [Sample.jane_doe; Sample.quoted; Sample.route_2010];
     faults := []; random := []; clock := 0; log := [] |}.

(** Two registrations of one new email, from two clients. *)
Definition ann (name : string) : gmap string JsValue :=
  <["name" := JString name]> (<["email" := JString "ann@example.com"]>
    (<["password" := JString "pw"]> ∅)).

End Demo.

(** * Properties *)

#[local] Arguments String.append !_ _ / : simpl nomatch.

(** ** The pattern language *)
Section LikeFacts.

Import Like.

Lemma matches_many (p : list tok) (s : string) :
  matches (Many :: p) s
  = matches p s
    || match s with
       | EmptyString => false
       | String _ s' => matches (Many :: p) s'
       end.
Proof. destruct s; reflexivity. Qed.

Lemma matches_many_nil (s : string) : matches [Many] s = true.
Proof.
  induction s as [|c s IH].
  - reflexivity.
  - rewrite matches_many. rewrite IH. apply orb_true_r.
Qed.

Lemma matches_lits_many (q s : string) :
  matches (lits q ++ [Many]) s = prefix_ci q s.
Proof.
  revert s. induction q as [|a q IH]; intros s.
  - cbn [lits app]. destruct s; [reflexivity|]. apply matches_many_nil.
  - destruct s as [|b s]; [reflexivity|].
    cbn [lits app matches prefix_ci]. now rewrite IH.
Qed.

Lemma matches_substring (q s : string) :
  matches (Many :: lits q ++ [Many]) s = contains_ci q s.
Proof.
  induction s as [|c s IH].
  - rewrite matches_many, matches_lits_many. reflexivity.
  - rewrite matches_many, matches_lits_many, IH. reflexivity.
Qed.

Lemma parse_plain (q rest : string) :
  plain q = true -> parse (q +:+ rest) = lits q ++ parse rest.
Proof.
  induction q as [|c q IH]; intros Hq.
  - reflexivity.
  - cbn [plain] in Hq. apply andb_true_iff in Hq as [Hc Hq].
    unfold meta in Hc. rewrite !negb_orb in Hc.
    apply andb_true_iff in Hc as [Hc H3]. apply andb_true_iff in Hc as [H1 H2].
    apply negb_true_iff in H1, H2, H3.
    cbn [String.append parse lits app]. rewrite H1, H2, H3.
    now rewrite IH.
Qed.

(** A search term built from plain text asks for that text somewhere. *)
Lemma like_wrapped_plain (q s : string) :
  plain q = true -> like s ("%" +:+ q +:+ "%") = contains_ci q s.
Proof.
  intros Hq. unfold like.
  change (parse ("%" +:+ q +:+ "%")) with (Many :: parse (q +:+ "%")).
  rewrite parse_plain by assumption.
  apply matches_substring.
Qed.

Lemma prefix_ci_contains (t s : string) :
  prefix_ci t s = true -> contains_ci t s = true.
Proof. intros Hp. destruct s; cbn [contains_ci]; rewrite Hp; reflexivity. Qed.

Lemma contains_ci_tail (t : string) (c : ascii) (s : string) :
  contains_ci t s = true -> contains_ci t (String c s) = true.
Proof. intros Hc. cbn [contains_ci]. rewrite Hc. apply orb_true_r. Qed.

Lemma matches_lits_prefix (t : string) (post : list tok) (s : string) :
  matches (lits t ++ post) s = true -> prefix_ci t s = true.
Proof.
  revert s. induction t as [|a t IH]; intros s Hm.
  - destruct s; reflexivity.
  - destruct s as [|b s]; [discriminate|].
    cbn [lits app matches] in Hm. apply andb_true_iff in Hm as [Hab Hm].
    cbn [prefix_ci]. rewrite Hab. now apply IH.
Qed.

(** Whatever surrounds them in the pattern, literal characters must be
    found in the value. *)
Lemma matches_needs_lits (pre : list tok) (t : string) (post : list tok) (s : string) :
  matches (pre ++ lits t ++ post) s = true -> contains_ci t s = true.
Proof.
  revert s. induction pre as [|k pre IH]; intros s Hm.
  - apply prefix_ci_contains. now apply matches_lits_prefix with (post := post).
  - destruct k as [| |c].
    + change ((Many :: pre) ++ lits t ++ post)
        with (Many :: (pre ++ lits t ++ post)) in Hm.
      induction s as [|d s IHs].
      * rewrite matches_many in Hm. rewrite orb_false_r in Hm. now apply IH.
      * rewrite matches_many in Hm. apply orb_true_iff in Hm as [Hm|Hm].
        -- now apply IH.
        -- apply contains_ci_tail. now apply IHs.
    + destruct s as [|d s]; [discriminate|].
      apply contains_ci_tail. apply IH. exact Hm.
    + destruct s as [|d s]; [discriminate|].
      cbn [app matches] in Hm. apply andb_true_iff in Hm as [_ Hm].
      apply contains_ci_tail. now apply IH.
Qed.

Lemma parse_cons (c : ascii) (p : string) :
  parse (String c p)
  = if Ascii.eqb c "\" then
      match p with
      | EmptyString => [Lit "\"%char]
      | String d p' => Lit d :: parse p'
      end
    else if Ascii.eqb c "%" then Many :: parse p
    else if Ascii.eqb c "_" then One :: parse p
    else Lit c :: parse p.
Proof. reflexivity. Qed.

Lemma append_cons (c : ascii) (s t : string) :
  String c s +:+ t = String c (s +:+ t).
Proof. reflexivity. Qed.

Lemma append_assoc (a b c : string) : (a +:+ b) +:+ c = a +:+ b +:+ c.
Proof.
  induction a as [|k a IH]; [reflexivity|].
  rewrite !append_cons. now rewrite IH.
Qed.

(** Plain text keeps its characters in a pattern wherever it stands, also
    right after a backslash. *)
Lemma parse_around_plain (t : string) :
  plain t = true ->
  forall x y : string,
    exists pre post : list tok, parse (x +:+ t +:+ y) = pre ++ lits t ++ post.
Proof.
  intros Ht.
  assert (Hboth : forall x y : string,
             (exists pre post, parse (x +:+ t +:+ y) = pre ++ lits t ++ post)
             /\ (forall c, exists pre post,
                    parse (String c x +:+ t +:+ y) = pre ++ lits t ++ post)).
  { induction x as [|d x IH]; intros y.
    - assert (H0 : exists pre post, parse ("" +:+ t +:+ y) = pre ++ lits t ++ post).
      { exists [], (parse y). cbn [String.append app]. now apply parse_plain. }
      split; [exact H0|]. intros c.
      rewrite append_cons, parse_cons.
      destruct H0 as (pre & post & Heq). rewrite Heq.
      destruct (Ascii.eqb c "\") eqn:Hesc.
      + change ("" +:+ t +:+ y) with (t +:+ y).
        destruct t as [|a t'].
        * eexists _, []. cbn [lits app]. rewrite app_nil_r. reflexivity.
        * cbn [plain] in Ht. apply andb_true_iff in Ht as [_ Ht'].
          rewrite append_cons. exists [], (parse y).
          cbn [lits app]. now rewrite parse_plain.
      + destruct (Ascii.eqb c "%"); [|destruct (Ascii.eqb c "_")];
          eexists (_ :: pre), post; reflexivity.
    - destruct (IH y) as [(pre0 & post0 & Heq0) Hd]. split; [apply Hd|]. intros c.
      rewrite append_cons, parse_cons.
      destruct (Ascii.eqb c "\") eqn:Hesc.
      + rewrite append_cons, Heq0. eexists (_ :: pre0), post0; reflexivity.
      + destruct (Hd d) as (pre & post & Heq). rewrite Heq.
        destruct (Ascii.eqb c "%"); [|destruct (Ascii.eqb c "_")];
          eexists (_ :: pre), post; reflexivity. }
  intros x y. apply Hboth.
Qed.

(** A search term that holds plain text somewhere only matches values that
    show that text. *)
Lemma like_needs_plain_part (t x y s : string) :
  plain t = true ->
  like s ("%" +:+ (x +:+ t +:+ y) +:+ "%") = true -> contains_ci t s = true.
Proof.
  intros Ht Hl. unfold like in Hl.
  destruct (parse_around_plain t Ht (String "%" x) (y +:+ "%")) as (pre & post & Heq).
  replace ("%" +:+ (x +:+ t +:+ y) +:+ "%")
    with (String "%" x +:+ t +:+ y +:+ "%") in Hl.
  - rewrite Heq in Hl. now apply matches_needs_lits in Hl.
  - rewrite !append_cons. change ("" +:+ ?u) with u. f_equal.
    now rewrite !append_assoc.
Qed.

End LikeFacts.

(** ** Case folding and the text of a year *)
Section CaseFacts.

Import Like.

Lemma to_lower_code (c : ascii) :
  N_of_ascii (to_lower c)
  = if ((65 <=? N_of_ascii c)%N && (N_of_ascii c <=? 90)%N)%bool
    then (N_of_ascii c + 32)%N
    else N_of_ascii c.
Proof. destruct c as [[] [] [] [] [] [] [] []]; reflexivity. Qed.

Ltac split_leb :=
  repeat match goal with
         | |- context [N.leb ?x ?y] => destruct (N.leb_spec x y)
         end.

(** Folding only ever identifies letters. *)
Lemma ci_eqb_caseless (a b : ascii) :
  letter a = false \/ letter b = false -> ci_eqb a b = Ascii.eqb a b.
Proof.
  intros H. unfold ci_eqb.
  apply eq_true_iff_eq. rewrite !Ascii.eqb_eq.
  split; [|intros ->; reflexivity].
  intros E. apply (f_equal N_of_ascii) in E. rewrite !to_lower_code in E.
  rewrite <- (ascii_N_embedding a), <- (ascii_N_embedding b). f_equal.
  unfold letter in H. cbv zeta in H.
  revert H E. generalize (N_of_ascii a) (N_of_ascii b). intros na nb.
  split_leb; cbn; intros [Hl|Hl] E; try discriminate; lia.
Qed.

Lemma prefix_ci_caseless (q s : string) :
  caseless q = true \/ caseless s = true -> prefix_ci q s = prefix_of q s.
Proof.
  revert s. induction q as [|a q IH]; intros s H; [reflexivity|].
  destruct s as [|b s]; [reflexivity|].
  cbn [prefix_ci prefix_of]. cbn [caseless] in H.
  rewrite !andb_true_iff, !negb_true_iff in H.
  rewrite ci_eqb_caseless by tauto. rewrite IH by tauto. reflexivity.
Qed.

Lemma contains_ci_caseless (q s : string) :
  caseless q = true \/ caseless s = true -> contains_ci q s = contains q s.
Proof.
  induction s as [|b s IH]; intros H.
  - cbn [contains_ci contains]. now rewrite prefix_ci_caseless.
  - cbn [contains_ci contains]. rewrite prefix_ci_caseless by assumption.
    rewrite IH; [reflexivity|].
    cbn [caseless] in H. rewrite andb_true_iff in H. tauto.
Qed.

Lemma caseless_uint (d : Decimal.uint) :
  caseless (NilEmpty.string_of_uint d) = true.
Proof. induction d; cbn; assumption || reflexivity. Qed.

Lemma caseless_string_of_Z (z : Z) : caseless (string_of_Z z) = true.
Proof.
  unfold string_of_Z, NilZero.string_of_int, NilZero.string_of_uint.
  destruct (Z.to_int z) as [d|d]; destruct d; cbn [caseless];
    try reflexivity; apply (caseless_uint (_ d)) || apply caseless_uint.
Qed.

Lemma contains_ci_empty (s : string) : contains_ci "" s = true.
Proof. destruct s; reflexivity. Qed.

End CaseFacts.

(** ** The alumni search *)
Section SearchFacts.

Context {B : Backend}.

Lemma query_or_empty_some (q : string) : AlumniTracer.query_or_empty (Some q) = q.
Proof.
  unfold AlumniTracer.query_or_empty. cbn [fmap option_fmap option_map falsy].
  destruct (String.eqb_spec q ""); subst; reflexivity.
Qed.

Lemma prepare_sql_text (s : Statement) : Db.prepare (sql_text s) = Some s.
Proof. destruct s; vm_compute; reflexivity. Qed.

(** A statement the server knows, sent through the pool. *)
Lemma pool_query_known (s : Statement) (params : list SqlValue) (w : World) :
  Db.pool_query (sql_text s) params w
  = if next_fails w then
      (Thrown, step_faults (emit (Query (sql_text s) params) w))
    else Db.execute s params (step_faults (emit (Query (sql_text s) params) w)).
Proof. unfold Db.pool_query. now rewrite prepare_sql_text. Qed.

(** What the route sends and answers, whether or not the query fails. *)
Lemma GET_run (param : option string) (w : World) :
  let term := "%" +:+ AlumniTracer.query_or_empty param +:+ "%" in
  let sent :=
    emit (Query (sql_text SearchAlumni) [Some (JString term); Some (JString term)])
      w in
  AlumniTracer.GET param w
  = if next_fails w then
      (Returned (NextResponse_json
                   (JObject [("error", "Failed to fetch alumni data")]) 500),
       emit ConsoleError (step_faults sent))
    else
      (Returned (NextResponse_json
                   (JRows (Db.AlumniRows
                             (List.filter (Db.alumni_where term term) (alumni w))))
                   200),
       step_faults sent).
Proof.
  cbv zeta. unfold AlumniTracer.GET, try_catch, mbind, handler_bind.
  change "SELECT id, name, graduation_year as graduationYear, major FROM alumni WHERE name LIKE ? OR graduation_year LIKE ?"
    with (sql_text SearchAlumni).
  rewrite pool_query_known.
  destruct (next_fails w); reflexivity.
Qed.

Lemma searchAlumni_rows (q : string) (w : World) :
  next_fails w = false ->
  AlumniTracer.searchAlumni q w
  = Some (List.filter (Db.alumni_where ("%" +:+ q +:+ "%") ("%" +:+ q +:+ "%"))
            (alumni w)).
Proof.
  intros Hup. unfold AlumniTracer.searchAlumni.
  rewrite GET_run, Hup, query_or_empty_some. reflexivity.
Qed.

(** Plain query text: the search is the substring search on both fields. *)
Lemma searchAlumni_plain (q : string) (w : World) :
  Like.plain q = true ->
  next_fails w = false ->
  AlumniTracer.searchAlumni q w = Some (List.filter (Db.mentions q) (alumni w)).
Proof.
  intros Hq Hup. rewrite searchAlumni_rows by assumption. f_equal.
  apply List.filter_ext. intros a. unfold Db.alumni_where, Db.mentions.
  now rewrite !like_wrapped_plain.
Qed.

Lemma mentions_spec_match (q : string) (a : Alumni) :
  Db.mentions q a = Db.spec_match q a.
Proof.
  unfold Db.mentions, Db.spec_match, Db.year_text. f_equal.
  apply contains_ci_caseless. right. apply caseless_string_of_Z.
Qed.

Lemma filter_none {A : Type} (f g : A -> bool) (l : list A) :
  (forall a, f a = true -> g a = true) ->
  forallb (fun a => negb (g a)) l = true ->
  List.filter f l = [].
Proof.
  intros Hfg. induction l as [|a l IH]; intros Hall; [reflexivity|].
  cbn [forallb] in Hall. apply andb_true_iff in Hall as [Ha Hall].
  cbn [List.filter]. destruct (f a) eqn:Hf.
  - apply Hfg in Hf. rewrite Hf in Ha. discriminate.
  - now apply IH.
Qed.

Lemma filter_all {A : Type} (f : A -> bool) (l : list A) :
  (forall a, f a = true) -> List.filter f l = l.
Proof.
  intros Hf. induction l as [|a l IH]; [reflexivity|].
  cbn [List.filter]. now rewrite Hf, IH.
Qed.

(** C1, as amended.  Whatever the query parameter, and whether or not the
    query is answered, the statement the alumni route sends is the same
    fixed text with two placeholders, and the text the user typed travels
    only in the two bound values.  The text [' OR '1'='1] is searched for
    as those very characters, letters compared without regard to case:
    the query that is this text is answered with exactly the records that
    show it in their name or in their graduation year, in table order (so
    with none when no record shows it, and never with the whole table
    because of its quotes), and a query that has this text somewhere in it
    is answered only with records that show it. *)
Theorem search_injection_text_is_searched_literally (x y : string) (w : World) :
  (forall param : option string,
      let term := "%" +:+ AlumniTracer.query_or_empty param +:+ "%" in
      log (snd (AlumniTracer.GET param w))
      = log w
        ++ Query
             "SELECT id, name, graduation_year as graduationYear, major FROM alumni WHERE name LIKE ? OR graduation_year LIKE ?"
             [Some (JString term); Some (JString term)]
           :: (if next_fails w then [ConsoleError] else []))
  /\ (next_fails w = false ->
      AlumniTracer.searchAlumni "' OR '1'='1" w
      = Some (List.filter (Db.mentions "' OR '1'='1") (alumni w))
      /\ exists rows : list Alumni,
           AlumniTracer.searchAlumni (x +:+ "' OR '1'='1" +:+ y) w = Some rows
           /\ forall a : Alumni,
                In a rows ->
                In a (alumni w) /\ Db.mentions "' OR '1'='1" a = true).
Proof.
  split.
  - intros param. cbv zeta. rewrite GET_run. cbv zeta.
    destruct (next_fails w); cbn [snd log emit step_faults];
      rewrite <- ?app_assoc; reflexivity.
  - intros Hup. split.
    + apply searchAlumni_plain; [reflexivity|exact Hup].
    + rewrite searchAlumni_rows by assumption. eexists. split; [reflexivity|].
      intros a Ha. apply List.filter_In in Ha as [Hin Ha].
      split; [exact Hin|].
      unfold Db.alumni_where in Ha. unfold Db.mentions.
      apply orb_true_iff in Ha as [Ha|Ha];
        apply like_needs_plain_part in Ha; try reflexivity;
        rewrite Ha; [reflexivity|apply orb_true_r].
Qed.

(** C2, as amended.  For a query text without the characters `%`, `_` and
    backslash, the search answers with exactly the records in which the
    text occurs in the name, letters compared without regard to case, or
    occurs in the graduation year read as text, in table order; for the
    empty text it answers with every record. *)
Theorem search_plain_text_is_substring_search (q : string) (w : World) :
  Like.plain q = true ->
  next_fails w = false ->
  AlumniTracer.searchAlumni q w = Some (Db.spec_search q (alumni w))
  /\ AlumniTracer.searchAlumni "" w = Some (alumni w).
Proof.
  intros Hq Hup. split.
  - rewrite searchAlumni_plain by assumption. f_equal.
    apply List.filter_ext. intros a. apply mentions_spec_match.
  - rewrite searchAlumni_plain by (assumption || reflexivity). f_equal.
    apply filter_all. intros a. unfold Db.mentions.
    now rewrite contains_ci_empty.
Qed.

(** C7, as amended.  The search for [2010] answers with exactly the
    records in which 2010 occurs in the graduation year or in the name. *)
Theorem search_2010_matches_year_or_name (w : World) :
  next_fails w = false ->
  AlumniTracer.searchAlumni "2010" w
  = Some (List.filter
            (fun a => Like.contains "2010" (Db.year_text a)
                      || Like.contains "2010" (name a))
            (alumni w)).
Proof.
  intros Hup. rewrite searchAlumni_plain by (assumption || reflexivity). f_equal.
  apply List.filter_ext. intros a. unfold Db.mentions.
  rewrite !contains_ci_caseless by (left; reflexivity).
  apply orb_comm.
Qed.

End SearchFacts.

Lemma search_injection_text_is_searched_literally_witness :
  next_fails Demo.quoted_world = false
  /\ AlumniTracer.searchAlumni (B := Sample.backend) "' OR '1'='1"
       Demo.quoted_world
     = Some [Sample.quoted]
  /\ AlumniTracer.searchAlumni (B := Sample.backend) "' OR '1'='1" Sample.world
     = Some [].
Proof.
  split; [reflexivity|]. split.
  - destruct (search_injection_text_is_searched_literally (B := Sample.backend)
                "" "" Demo.quoted_world) as [_ Hlit].
    destruct (Hlit eq_refl) as [Hexact _]. exact Hexact.
  - destruct (search_injection_text_is_searched_literally (B := Sample.backend)
                "" "" Sample.world) as [_ Hlit].
    destruct (Hlit eq_refl) as [Hexact _]. exact Hexact.
Defined.

(** C1 as stated fails: no record of this table holds the text
    [' OR '1'='1] character for character, in its name or in its
    graduation year, and yet the search for it is answered with a record,
    the one whose name holds the text in lower case. *)
Lemma search_injection_text_matches_other_case :
  forallb (fun a => negb (Db.holds "' OR '1'='1" a)) (alumni Demo.quoted_world)
  = true
  /\ AlumniTracer.searchAlumni (B := Sample.backend) "' OR '1'='1"
       Demo.quoted_world
     = Some [Sample.quoted]
  /\ name Sample.quoted = "x' or '1'='1".
Proof. repeat split; reflexivity. Qed.

(** The quoted text is looked for like any other: a record that shows it
    is found, and only that record. *)
Example injection_text_finds_its_record :
  AlumniTracer.searchAlumni (B := Sample.backend) "' OR '1'='1"
    {| users := []; auto_increment := 1;
       alumni := [Sample.jane_doe; Sample.quoted; Sample.route_2010];
       faults := []; random := []; clock := 0; log := [] |}
  = Some [Sample.quoted].
Proof. reflexivity. Qed.

(** C2 as stated fails on a query text that is a wildcard: `_` matches any
    one character, so every record with a non-empty field is returned,
    although the underscore occurs in none of them. *)
Lemma search_underscore_returns_records_without_it :
  AlumniTracer.searchAlumni (B := Sample.backend) "_" Sample.world
  = Some [Sample.jane_doe; Sample.route_2010]
  /\ Db.spec_search "_" (alumni Sample.world) = [].
Proof. split; reflexivity. Qed.

Lemma search_plain_text_is_substring_search_witness :
  Like.plain "jANE" = true
  /\ next_fails Sample.world = false
  /\ AlumniTracer.searchAlumni (B := Sample.backend) "jANE" Sample.world
     = Some (Db.spec_search "jANE" (alumni Sample.world)).
Proof.
  split; [reflexivity|]. split; [reflexivity|].
  apply (search_plain_text_is_substring_search (B := Sample.backend) "jANE" Sample.world);
    reflexivity.
Defined.

(** C7 as stated fails on a record whose name shows 2010 while its
    graduation year does not. *)
Lemma search_2010_returns_name_match :
  AlumniTracer.searchAlumni (B := Sample.backend) "2010" Sample.world
  = Some [Sample.jane_doe; Sample.route_2010]
  /\ Like.contains "2010" (Db.year_text Sample.route_2010) = false.
Proof. split; reflexivity. Qed.

Lemma search_2010_matches_year_or_name_witness :
  next_fails Sample.world = false
  /\ AlumniTracer.searchAlumni (B := Sample.backend) "2010" Sample.world
     = Some [Sample.jane_doe; Sample.route_2010].
Proof.
  split; [reflexivity|].
  apply (search_2010_matches_year_or_name (B := Sample.backend) Sample.world).
  reflexivity.
Defined.

(** ** Hashing and verifying *)
Section HashFacts.

Context {B : Backend}.

Lemma length_radix64 (n : nat) (z : Z) : String.length (Bcrypt.radix64 n z) = n.
Proof.
  revert z. induction n as [|n IH]; intros z; [reflexivity|].
  cbn [Bcrypt.radix64 String.length]. now rewrite IH.
Qed.

Lemma length_append (a b : string) :
  String.length (a +:+ b) = (String.length a + String.length b)%nat.
Proof.
  induction a as [|c a IH]; [reflexivity|].
  rewrite append_cons. cbn [String.length]. now rewrite IH.
Qed.

Lemma substring_prefix (a b : string) :
  substring 0 (String.length a) (a +:+ b) = a.
Proof.
  induction a as [|c a IH].
  - destruct b; reflexivity.
  - rewrite append_cons. cbn [String.length substring]. now rewrite IH.
Qed.

Lemma substring_all (s : string) : substring 0 (String.length s) s = s.
Proof.
  induction s as [|c s IH]; [reflexivity|].
  cbn [String.length substring]. now rewrite IH.
Qed.

Lemma read_salt_header (salt22 : string) :
  String.length salt22 = 22%nat ->
  Bcrypt.read_salt ("$2a$10$" +:+ salt22) = Some (10%nat, salt22).
Proof.
  intros Hlen. unfold Bcrypt.read_salt.
  pose proof (substring_all salt22) as Hall. rewrite Hlen in Hall.
  rewrite length_append, Hlen.
  rewrite !append_cons.
  change (substring 7 22 (String "$" (String "2" (String "a" (String "$"
            (String "1" (String "0" (String "$" ("" +:+ salt22)))))))))
    with (substring 0 22 salt22).
  rewrite Hall. reflexivity.
Qed.

Lemma genSalt_10 (r : Z) :
  Bcrypt.genSalt 10 r = "$2a$10$" +:+ Bcrypt.radix64 22 r.
Proof. reflexivity. Qed.

Lemma length_genSalt_10 (r : Z) : String.length (Bcrypt.genSalt 10 r) = 29%nat.
Proof. rewrite genSalt_10, length_append, length_radix64. reflexivity. Qed.

Lemma hash_genSalt_10 (p : string) (r : Z) :
  Bcrypt.hash p (Bcrypt.genSalt 10 r)
  = Some (Bcrypt.genSalt 10 r +:+ eksblowfish 10 (Bcrypt.radix64 22 r) p).
Proof.
  unfold Bcrypt.hash. rewrite genSalt_10.
  now rewrite read_salt_header by apply length_radix64.
Qed.

(** A hash made with a fresh salt verifies the password it was made from. *)
Lemma compare_hash (p : string) (r : Z) (h : string) :
  (forall cost salt password,
      String.length (eksblowfish cost salt password) = 31%nat) ->
  Bcrypt.hash p (Bcrypt.genSalt 10 r) = Some h ->
  Bcrypt.compare p h = true.
Proof.
  intros Hlen Hh. rewrite hash_genSalt_10 in Hh.
  assert (Heq : h = Bcrypt.genSalt 10 r +:+ eksblowfish 10 (Bcrypt.radix64 22 r) p)
    by congruence.
  subst h. clear Hh. unfold Bcrypt.compare.
  pose proof (substring_prefix (Bcrypt.genSalt 10 r)
                (eksblowfish 10 (Bcrypt.radix64 22 r) p)) as Hpre.
  rewrite length_genSalt_10 in Hpre.
  rewrite length_append, length_genSalt_10, Hlen. cbn [Nat.add Nat.eqb negb].
  rewrite Hpre, hash_genSalt_10. apply String.eqb_refl.
Qed.

(** C6.  Hashing a password succeeds, and verifying the same password
    against the hash that came out answers true, whatever salt the random
    source gave and whenever the verification is made.  The digest of the
    key schedule is 31 characters long, as in every bcrypt hash. *)
Theorem hash_then_compare_is_true (p : string) (w : World) :
  (forall cost salt password,
      String.length (eksblowfish cost salt password) = 31%nat) ->
  exists (h : string) (w1 : World),
    Hash.hashPassword (Some (JString p)) w = (Returned h, w1)
    /\ forall w2 : World,
         fst (Hash.comparePassword (Some (JString p)) h w2) = Returned true.
Proof.
  intros Hlen.
  unfold Hash.hashPassword, mbind, handler_bind, Hash.genSalt, Hash.bcrypt_hash.
  rewrite hash_genSalt_10. eexists _, _. split; [reflexivity|].
  intros w2. unfold Hash.comparePassword. cbn [fst]. f_equal.
  apply compare_hash with (r := hd 0 (random w)); [exact Hlen|].
  apply hash_genSalt_10.
Qed.

End HashFacts.

Lemma length_fit (n : nat) (s : string) : String.length (Sample.fit n s) = n.
Proof.
  revert s. induction n as [|n IH]; intros s; [reflexivity|].
  destruct s; cbn [Sample.fit String.length]; now rewrite IH.
Qed.

Lemma hash_then_compare_is_true_witness :
  (forall cost salt password,
      String.length (eksblowfish (Backend := Sample.backend) cost salt password)
      = 31%nat)
  /\ exists (h : string) (w1 : World),
       Hash.hashPassword (B := Sample.backend) (Some (JString "secure123"))
         Sample.world
       = (Returned h, w1)
       /\ forall w2 : World,
            fst (Hash.comparePassword (B := Sample.backend)
                   (Some (JString "secure123")) h w2)
            = Returned true.
Proof.
  assert (Hlen : forall cost salt password,
             String.length
               (eksblowfish (Backend := Sample.backend) cost salt password)
             = 31%nat).
  { intros cost salt password. apply length_fit. }
  split; [exact Hlen|].
  apply (hash_then_compare_is_true (B := Sample.backend) "secure123" Sample.world Hlen).
Defined.

(** A different password does not verify against Jane's hash. *)
Example wrong_password_is_rejected :
  Bcrypt.compare (B := Sample.backend) "wrong"
    "$2a$10$3.B...................secure1233.B..................."
  = false
  /\ Bcrypt.compare (B := Sample.backend) "secure123"
       "$2a$10$3.B...................secure1233.B..................."
     = true.
Proof. split; reflexivity. Qed.

(** ** Registration *)
Section RegisterFacts.

Context {B : Backend}.

Ltac run_register :=
  unfold Register.POST, try_catch, request_json, mbind, handler_bind, mret,
    handler_ret, throw, console_error, tell.

(** A request that fails the presence test is answered at once. *)
Lemma register_missing_fields (form : gmap string JsValue) (w : World) :
  falsy (form !! "name") || falsy (form !! "email") || falsy (form !! "password")
  = true ->
  Register.POST (Some form) w
  = (Returned {| status := 400;
                 body := JObject [("error", "Missing fields")];
                 headers := [] |}, w).
Proof. intros Hf. run_register. rewrite Hf. reflexivity. Qed.

Lemma fails_at_0 (w : World) : fails_at 0 w = next_fails w.
Proof. unfold fails_at, next_fails. destruct (faults w); reflexivity. Qed.

Lemma falsy_false_some (x : option JsValue) :
  falsy x = false -> exists v : JsValue, x = Some v.
Proof. destruct x as [v|]; [eauto|discriminate]. Qed.

(** A registration that passes the presence test, written out. *)
Lemma register_run (form : gmap string JsValue) (vn ve vp : JsValue) (w : World) :
  form !! "name" = Some vn ->
  form !! "email" = Some ve ->
  form !! "password" = Some vp ->
  falsy (Some vn) = false ->
  falsy (Some ve) = false ->
  falsy (Some vp) = false ->
  Register.POST (Some form) w
  = let server_error :=
      {| status := 500; body := JObject [("error", "Server error")];
         headers := [] |} in
    let w1 := step_faults (emit (Query (sql_text SelectUserId) [Some ve]) w) in
    if next_fails w then (Returned server_error, emit ConsoleError w1)
    else if (0 <? List.length (List.filter (Db.email_is ve) (users w)))%nat then
      (Returned {| status := 409;
                   body := JObject [("error", "User already exists")];
                   headers := [] |}, w1)
    else
      let salt := Bcrypt.genSalt 10 (hd 0 (random w)) in
      let w2 := step_random (emit (GenSalt 10) w1) in
      match vp with
      | JString p =>
          let h := salt +:+ eksblowfish 10 (Bcrypt.radix64 22 (hd 0 (random w))) p in
          let w3 :=
            step_faults
              (emit (Query (sql_text InsertUser)
                       [Some vn; Some ve; Some (JString h);
                        form !! "graduationYear"; form !! "major"])
                 (emit (BcryptHash p salt) w2)) in
          if fails_at 1 w then (Returned server_error, emit ConsoleError w3)
          else
            match Db.text_column (Some vn), Db.text_column (Some ve),
                  Db.nullable_column (form !! "graduationYear"),
                  Db.nullable_column (form !! "major") with
            | Some n, Some e, Some gy, Some mj =>
                if unique_email && existsb (Db.email_is (JString e)) (users w)
                then (Returned server_error, emit ConsoleError w3)
                else
                  (Returned {| status := 201;
                               body := JObject [("message", "Registration successful")];
                               headers := [] |},
                   add_user
                     {| user_id := auto_increment w; user_name := n;
                        user_email := e; user_password := h;
                        user_graduation_year := gy; user_major := mj |} w3)
            | _, _, _, _ => (Returned server_error, emit ConsoleError w3)
            end
      | _ => (Returned server_error, emit ConsoleError w2)
      end.
Proof.
  intros Hn He Hp Hfn Hfe Hfp. run_register.
  rewrite Hn, He, Hp, Hfn, Hfe, Hfp. cbn [orb].
  change "SELECT id FROM users WHERE email = ?" with (sql_text SelectUserId).
  change "INSERT INTO users (name, email, password, graduation_year, major) VALUES (?, ?, ?, ?, ?)"
    with (sql_text InsertUser).
  rewrite pool_query_known. cbv zeta.
  destruct (next_fails w) eqn:Hup; [reflexivity|].
  cbn [Db.execute].
  change (users (step_faults (emit (Query (sql_text SelectUserId) [Some ve]) w)))
    with (users w).
  cbn [Db.length]. rewrite List.length_map.
  destruct (0 <? List.length _)%nat; [reflexivity|].
  unfold Hash.hashPassword, Hash.genSalt, Hash.bcrypt_hash, mbind, handler_bind,
    throw.
  change (random (step_faults (emit (Query (sql_text SelectUserId) [Some ve]) w)))
    with (random w).
  destruct vp as [| | |p|]; try reflexivity.
  rewrite hash_genSalt_10, pool_query_known.
  assert (Hsecond : forall q,
             next_fails
               (emit q (step_random
                          (emit (GenSalt 10)
                             (step_faults
                                (emit (Query (sql_text SelectUserId) [Some ve]) w)))))
             = fails_at 1 w).
  { intros q. unfold next_fails, fails_at. cbn.
    destruct (faults w) as [|f0 [|f1 fs]]; reflexivity. }
  rewrite Hsecond. destruct (fails_at 1 w); [reflexivity|].
  cbn [Db.execute].
  change (Db.text_column (Some (JString ?x))) with (Some x).
  destruct (Db.text_column (Some vn)); [|reflexivity].
  destruct (Db.text_column (Some ve)); [|reflexivity].
  destruct (Db.nullable_column (form !! "graduationYear")); [|reflexivity].
  destruct (Db.nullable_column (form !! "major")); [|reflexivity].
  match goal with
  | |- context [existsb ?f (users ?x)] => change (users x) with (users w)
  end.
  destruct (unique_email && existsb _ (users w)); reflexivity.
Qed.

Lemma existsb_filter_nil {A : Type} (f : A -> bool) (l : list A) :
  List.filter f l = [] -> existsb f l = false.
Proof.
  induction l as [|a l IH]; [reflexivity|]. cbn.
  destruct (f a); [discriminate|exact IH].
Qed.

Ltac server_error :=
  eexists _, _; split; [reflexivity|]; split; [reflexivity|];
  split; [reflexivity|]; left; repeat split; reflexivity.

(** Every way a registration can end, with what it leaves behind. *)
Lemma register_cases (req : RequestBody) (w : World) :
  exists (r : Response) (w' : World),
    Register.POST req w = (Returned r, w')
    /\ alumni w' = alumni w
    /\ clock w' = clock w
    /\ ((r = {| status := 500; body := JObject [("error", "Server error")];
                headers := [] |}
         /\ users w' = users w /\ auto_increment w' = auto_increment w)
        \/ (r = {| status := 400; body := JObject [("error", "Missing fields")];
                   headers := [] |}
            /\ w' = w)
        \/ (r = {| status := 409;
                   body := JObject [("error", "User already exists")];
                   headers := [] |}
            /\ users w' = users w /\ auto_increment w' = auto_increment w)
        \/ (r = {| status := 201;
                   body := JObject [("message", "Registration successful")];
                   headers := [] |}
            /\ exists (form : gmap string JsValue) (ve : JsValue)
                 (n e p h : string) (gy mj : option string),
                 req = Some form
                 /\ Db.text_column (form !! "name") = Some n
                 /\ form !! "email" = Some ve
                 /\ Db.text_column (Some ve) = Some e
                 /\ form !! "password" = Some (JString p)
                 /\ Db.nullable_column (form !! "graduationYear") = Some gy
                 /\ Db.nullable_column (form !! "major") = Some mj
                 /\ List.filter (Db.email_is ve) (users w) = []
                 /\ Bcrypt.hash p (Bcrypt.genSalt 10 (hd 0 (random w))) = Some h
                 /\ users w'
                    = users w
                      ++ [{| user_id := auto_increment w; user_name := n;
                             user_email := e; user_password := h;
                             user_graduation_year := gy; user_major := mj |}]
                 /\ auto_increment w' = auto_increment w + 1)).
Proof.
  destruct req as [form|].
  2:{ eexists _, _. split; [reflexivity|]. split; [reflexivity|].
      split; [reflexivity|]. left. repeat split; reflexivity. }
  destruct (falsy (form !! "name") || falsy (form !! "email")
            || falsy (form !! "password")) eqn:Hf.
  { rewrite register_missing_fields by assumption.
    eexists _, _. split; [reflexivity|]. split; [reflexivity|].
    split; [reflexivity|]. right. left. split; reflexivity. }
  apply orb_false_iff in Hf as [Hf Hfp]. apply orb_false_iff in Hf as [Hfn Hfe].
  destruct (falsy_false_some _ Hfn) as [vn Hn].
  destruct (falsy_false_some _ Hfe) as [ve He].
  destruct (falsy_false_some _ Hfp) as [vp Hp].
  rewrite Hn in Hfn. rewrite He in Hfe. rewrite Hp in Hfp.
  rewrite (register_run form vn ve vp w Hn He Hp Hfn Hfe Hfp). cbv zeta.
  destruct (next_fails w).
  { eexists _, _. split; [reflexivity|]. split; [reflexivity|].
    split; [reflexivity|]. left. repeat split; reflexivity. }
  destruct (0 <? List.length (List.filter (Db.email_is ve) (users w)))%nat eqn:Hlen.
  { eexists _, _. split; [reflexivity|]. split; [reflexivity|].
    split; [reflexivity|]. right. right. left. repeat split; reflexivity. }
  assert (Hfresh : List.filter (Db.email_is ve) (users w) = []).
  { destruct (List.filter (Db.email_is ve) (users w)); [reflexivity|discriminate]. }
  destruct vp as [| | |p|]; try server_error.
  destruct (fails_at 1 w); [server_error|].
  destruct (Db.text_column (Some vn)) as [n|] eqn:Hcn; [|server_error].
  destruct (Db.text_column (Some ve)) as [e|] eqn:Hce; [|server_error].
  destruct (Db.nullable_column (form !! "graduationYear")) as [gy|] eqn:Hgy;
    [|server_error].
  destruct (Db.nullable_column (form !! "major")) as [mj|] eqn:Hmj;
    [|server_error].
  destruct (unique_email && existsb _ (users w)); [server_error|].
  eexists _, _. split; [reflexivity|]. split; [reflexivity|].
  split; [reflexivity|]. right. right. right. split; [reflexivity|].
  eexists form, ve, n, e, p, _, gy, mj. rewrite hash_genSalt_10, Hn.
  repeat split; reflexivity || assumption.
Qed.

Lemma filter_email_found (e : string) (l : list User) :
  email_eq e (JString e) = true ->
  (exists u, In u l /\ user_email u = e) ->
  List.filter (Db.email_is (JString e)) l <> [].
Proof.
  intros Hrefl (u & Hin & Hu) Hnil.
  assert (Hf : In u (List.filter (Db.email_is (JString e)) l)).
  { apply List.filter_In. split; [exact Hin|].
    unfold Db.email_is. now rewrite Hu. }
  rewrite Hnil in Hf. destruct Hf.
Qed.

(** C5.  A well-formed registration (name, email and password all
    non-empty) for an email that some stored account already has is
    answered with 409 and the conflict message, and the accounts are what
    they were: nothing is modified and nothing is inserted.  The column
    comparison finds equal emails equal, and the lookup is answered. *)
Theorem register_existing_email_conflicts
    (form : gmap string JsValue) (e : string) (w : World) :
  (forall s : string, email_eq s (JString s) = true) ->
  falsy (form !! "name") = false ->
  form !! "email" = Some (JString e) ->
  falsy (form !! "email") = false ->
  falsy (form !! "password") = false ->
  (exists u : User, In u (users w) /\ user_email u = e) ->
  next_fails w = false ->
  exists w' : World,
    Register.POST (Some form) w
    = (Returned {| status := 409;
                   body := JObject [("error", "User already exists")];
                   headers := [] |}, w')
    /\ users w' = users w
    /\ auto_increment w' = auto_increment w.
Proof.
  intros Hrefl Hfn He Hfe Hfp Hex Hup.
  destruct (falsy_false_some _ Hfn) as [vn Hn].
  destruct (falsy_false_some _ Hfp) as [vp Hp].
  rewrite Hn in Hfn. rewrite He in Hfe. rewrite Hp in Hfp.
  rewrite (register_run form vn (JString e) vp w Hn He Hp Hfn Hfe Hfp). cbv zeta.
  rewrite Hup.
  pose proof (filter_email_found e (users w) (Hrefl e) Hex) as Hfound.
  destruct (List.filter (Db.email_is (JString e)) (users w)) as [|u0 rest];
    [congruence|].
  cbn [List.length Nat.ltb Nat.leb].
  eexists. split; [reflexivity|]. split; reflexivity.
Qed.

(** C8, as amended.  A registration that succeeds is answered with status
    201 and a body whose only member is the message
    "Registration successful", with no header: the same answer for every
    account, so it carries neither the identifier the new account was
    stored under nor the password or its hash. *)
Theorem register_success_is_a_fixed_message
    (req : RequestBody) (w : World) (r : Response) (w' : World) :
  Register.POST req w = (Returned r, w') ->
  status r = 201 ->
  r = {| status := 201;
         body := JObject [("message", "Registration successful")];
         headers := [] |}
  /\ exists u : User, users w' = users w ++ [u] /\ user_id u = auto_increment w.
Proof.
  intros Hrun Hst.
  destruct (register_cases req w) as (r0 & w0 & Hrun0 & _ & _ & Hcase).
  rewrite Hrun in Hrun0. injection Hrun0 as <- <-.
  destruct Hcase as [(-> & _)|[(-> & _)|[(-> & _)|(-> & Hok)]]];
    try discriminate Hst.
  split; [reflexivity|].
  destruct Hok as (form & ve & n & e & p & h & gy & mj & _ & _ & _ & _ & _ & _ & _
                   & _ & _ & Hu & _).
  eexists. split; [exact Hu|reflexivity].
Qed.

(** C10.  When the name, the email or the password is missing or empty,
    the registration is answered with 400 and the world is exactly what it
    was: no statement was sent, no salt was drawn, nothing was hashed and
    nothing was stored. *)
Theorem register_validation_precedes_gateway
    (form : gmap string JsValue) (w : World) :
  falsy (form !! "name") = true \/ falsy (form !! "email") = true
  \/ falsy (form !! "password") = true ->
  Register.POST (Some form) w
  = (Returned {| status := 400;
                 body := JObject [("error", "Missing fields")];
                 headers := [] |}, w).
Proof.
  intros Hf. apply register_missing_fields.
  destruct Hf as [-> | [-> | ->]];
    rewrite ?orb_true_r; reflexivity.
Qed.

End RegisterFacts.

(** ** Login *)
Section LoginFacts.

Context {B : Backend}.

Ltac run_login :=
  unfold Login.POST, try_catch, request_json, mbind, handler_bind, mret,
    handler_ret, throw, console_error, tell.

Lemma login_missing_fields (form : gmap string JsValue) (w : World) :
  falsy (form !! "email") || falsy (form !! "password") = true ->
  Login.POST (Some form) w
  = (Returned {| status := 400;
                 body := JObject [("error", "Email and password are required")];
                 headers := [] |}, w).
Proof. intros Hf. run_login. rewrite Hf. reflexivity. Qed.

(** A login that passes the presence test, written out: the first account
    the lookup finds decides, and a password that is not a string makes
    bcrypt reject. *)
Lemma login_paths (form : gmap string JsValue) (ve vp : JsValue) (w : World) :
  form !! "email" = Some ve ->
  form !! "password" = Some vp ->
  falsy (Some ve) = false ->
  falsy (Some vp) = false ->
  Login.POST (Some form) w
  = let server_error :=
      {| status := 500; body := JObject [("error", "Server error")];
         headers := [] |} in
    let invalid :=
      {| status := 401; body := JObject [("error", "Invalid credentials")];
         headers := [] |} in
    let w1 :=
      step_faults (emit (Query (sql_text SelectUserCredentials) [Some ve]) w) in
    if next_fails w then (Returned server_error, emit ConsoleError w1)
    else
      match List.filter (Db.email_is ve) (users w) with
      | [] => (Returned invalid, w1)
      | u :: _ =>
          match vp with
          | JString p =>
              let w2 := emit (BcryptCompare p (user_password u)) w1 in
              if Bcrypt.compare p (user_password u) then
                (Returned
                   {| status := 200;
                      body := JObject [("message", "Login successful")];
                      headers :=
                        [("Set-Cookie",
                          serialize "session_token"
                            (Login.session_token (user_id u) (clock w)))] |},
                 w2)
              else (Returned invalid, w2)
          | _ => (Returned server_error, emit ConsoleError w1)
          end
      end.
Proof.
  intros He Hp Hfe Hfp. run_login. rewrite He, Hp, Hfe, Hfp. cbn [orb].
  change "SELECT id, password FROM users WHERE email = ?"
    with (sql_text SelectUserCredentials).
  rewrite pool_query_known. cbv zeta.
  destruct (next_fails w); [reflexivity|].
  cbn [Db.execute].
  change (users (step_faults
                   (emit (Query (sql_text SelectUserCredentials) [Some ve]) w)))
    with (users w).
  destruct (List.filter (Db.email_is ve) (users w)) as [|u rest]; [reflexivity|].
  cbn [map Db.length List.length Nat.eqb Login.first_user].
  unfold Hash.comparePassword, date_getTime.
  destruct vp as [| | |p|]; try reflexivity.
  destruct (Bcrypt.compare p (user_password u)); reflexivity.
Qed.

(** The same for a password that is a string and a lookup that is
    answered. *)
Lemma login_run (form : gmap string JsValue) (ve : JsValue) (p : string)
    (w : World) :
  form !! "email" = Some ve ->
  form !! "password" = Some (JString p) ->
  falsy (Some ve) = false ->
  falsy (Some (JString p)) = false ->
  next_fails w = false ->
  fst (Login.POST (Some form) w)
  = match List.filter (Db.email_is ve) (users w) with
    | [] =>
        Returned {| status := 401;
                    body := JObject [("error", "Invalid credentials")];
                    headers := [] |}
    | u :: _ =>
        if Bcrypt.compare p (user_password u) then
          Returned
            {| status := 200;
               body := JObject [("message", "Login successful")];
               headers :=
                 [("Set-Cookie",
                   serialize "session_token"
                     (Login.session_token (user_id u) (clock w)))] |}
        else
          Returned {| status := 401;
                      body := JObject [("error", "Invalid credentials")];
                      headers := [] |}
    end.
Proof.
  intros He Hp Hfe Hfp Hup.
  rewrite (login_paths form ve (JString p) w He Hp Hfe Hfp). cbv zeta.
  rewrite Hup.
  destruct (List.filter (Db.email_is ve) (users w)) as [|u rest]; [reflexivity|].
  destruct (Bcrypt.compare p (user_password u)); reflexivity.
Qed.

(** Every way a login can end.  The world only gains log entries and
    loses the fault it met. *)
Lemma login_cases (req : RequestBody) (w : World) :
  exists (r : Response) (w' : World),
    Login.POST req w = (Returned r, w')
    /\ users w' = users w
    /\ auto_increment w' = auto_increment w
    /\ alumni w' = alumni w
    /\ random w' = random w
    /\ clock w' = clock w
    /\ (r = {| status := 500; body := JObject [("error", "Server error")];
               headers := [] |}
        \/ (r = {| status := 400;
                   body := JObject [("error", "Email and password are required")];
                   headers := [] |}
            /\ w' = w)
        \/ r = {| status := 401;
                  body := JObject [("error", "Invalid credentials")];
                  headers := [] |}
        \/ exists (form : gmap string JsValue) (ve : JsValue) (p : string)
             (u : User) (rest : list User),
             req = Some form
             /\ form !! "email" = Some ve
             /\ form !! "password" = Some (JString p)
             /\ List.filter (Db.email_is ve) (users w) = u :: rest
             /\ Bcrypt.compare p (user_password u) = true
             /\ r = {| status := 200;
                       body := JObject [("message", "Login successful")];
                       headers :=
                         [("Set-Cookie",
                           serialize "session_token"
                             (Login.session_token (user_id u) (clock w)))] |}).
Proof.
  destruct req as [form|].
  2:{ eexists _, _. split; [reflexivity|]. repeat (split; [reflexivity|]).
      left. reflexivity. }
  destruct (falsy (form !! "email") || falsy (form !! "password")) eqn:Hf.
  { rewrite login_missing_fields by assumption.
    eexists _, _. split; [reflexivity|]. repeat (split; [reflexivity|]).
    right. left. split; reflexivity. }
  apply orb_false_iff in Hf as [Hfe Hfp].
  destruct (falsy_false_some _ Hfe) as [ve He].
  destruct (falsy_false_some _ Hfp) as [vp Hp].
  rewrite He in Hfe. rewrite Hp in Hfp.
  rewrite (login_paths form ve vp w He Hp Hfe Hfp). cbv zeta.
  destruct (next_fails w).
  { eexists _, _. split; [reflexivity|]. repeat (split; [reflexivity|]).
    left. reflexivity. }
  destruct (List.filter (Db.email_is ve) (users w)) as [|u rest] eqn:Hrows.
  { eexists _, _. split; [reflexivity|]. repeat (split; [reflexivity|]).
    right. right. left. reflexivity. }
  destruct vp as [| | |p|];
    try (eexists _, _; split; [reflexivity|]; repeat (split; [reflexivity|]);
         left; reflexivity).
  destruct (Bcrypt.compare p (user_password u)) eqn:Hcmp.
  - eexists _, _. split; [reflexivity|]. repeat (split; [reflexivity|]).
    right. right. right. exists form, ve, p, u, rest.
    repeat split; reflexivity || assumption.
  - eexists _, _. split; [reflexivity|]. repeat (split; [reflexivity|]).
    right. right. left. reflexivity.
Qed.

(** A login that is answered with 200 found an account, verified the
    password against it and set the cookie from its id and the clock. *)
Lemma login_success_inv (req : RequestBody) (w : World) (r : Response) (w' : World) :
  Login.POST req w = (Returned r, w') ->
  status r = 200 ->
  exists (form : gmap string JsValue) (ve : JsValue) (p : string) (u : User)
    (rest : list User),
    req = Some form
    /\ form !! "email" = Some ve
    /\ form !! "password" = Some (JString p)
    /\ List.filter (Db.email_is ve) (users w) = u :: rest
    /\ Bcrypt.compare p (user_password u) = true
    /\ headers r
       = [("Set-Cookie",
           serialize "session_token" (Login.session_token (user_id u) (clock w)))].
Proof.
  intros Hrun Hst.
  destruct (login_cases req w) as (r0 & w0 & Hrun0 & _ & _ & _ & _ & _ & Hcase).
  rewrite Hrun in Hrun0. injection Hrun0 as <- <-.
  destruct Hcase as [->|[[-> _]|[->|Hok]]]; try discriminate Hst.
  destruct Hok as (form & ve & p & u & rest & Hreq & He & Hp & Hrows & Hcmp & ->).
  exists form, ve, p, u, rest. repeat split; reflexivity || assumption.
Qed.

(** C3, as amended.  A login that is answered with 200 found at least one
    account for the email sent and verified the password against the
    first of them; the token it sets is that account's id, a hyphen and
    the clock reading, printed as JavaScript numbers, which for integers
    in the safe range is their decimal text.  The token is a function of
    that account id and the clock alone, in which the random source has no
    part: in any other world with the same accounts and the same clock
    reading, the same request is answered with the same cookie. *)
Theorem login_token_is_account_id_and_clock
    (req : RequestBody) (w : World) (r : Response) (w' : World) :
  Login.POST req w = (Returned r, w') ->
  status r = 200 ->
  exists (form : gmap string JsValue) (ve : JsValue) (p : string) (u : User)
    (rest : list User),
    req = Some form
    /\ form !! "email" = Some ve
    /\ form !! "password" = Some (JString p)
    /\ List.filter (Db.email_is ve) (users w) = u :: rest
    /\ Bcrypt.compare p (user_password u) = true
    /\ headers r
       = [("Set-Cookie",
           "session_token="
           +:+ Login.session_token (user_id u) (clock w)
           +:+ "; Max-Age=3600; Path=/; HttpOnly")]
    /\ (safe_integer (user_id u) = true ->
        safe_integer (clock w) = true ->
        Login.session_token (user_id u) (clock w)
        = string_of_Z (user_id u) +:+ "-" +:+ string_of_Z (clock w))
    /\ (forall (w2 : World) (r2 : Response) (w2' : World),
           users w2 = users w ->
           clock w2 = clock w ->
           Login.POST req w2 = (Returned r2, w2') ->
           status r2 = 200 ->
           headers r2 = headers r).
Proof.
  intros Hrun Hst.
  destruct (login_success_inv req w r w' Hrun Hst)
    as (form & ve & p & u & rest & Hreq & He & Hp & Hrows & Hcmp & Hhead).
  exists form, ve, p, u, rest.
  split; [exact Hreq|]. split; [exact He|]. split; [exact Hp|].
  split; [exact Hrows|]. split; [exact Hcmp|]. split; [exact Hhead|]. split.
  - intros Hid Hnow. unfold Login.session_token, number_text.
    now rewrite Hid, Hnow.
  - intros w2 r2 w2' Hu Hc Hrun2 Hst2.
    destruct (login_success_inv req w2 r2 w2' Hrun2 Hst2)
      as (form2 & ve2 & p2 & u2 & rest2 & Hreq2 & He2 & _ & Hrows2 & _ & Hhead2).
    assert (form2 = form) by congruence. subst form2.
    assert (ve2 = ve) by congruence. subst ve2.
    rewrite Hu, Hrows in Hrows2. injection Hrows2 as <- _.
    rewrite Hhead, Hhead2, Hc. reflexivity.
Qed.

(** C4, as amended.  A login whose email is not empty and whose password
    is a non-empty string, with the lookup answered, gets one and the same
    response, status 401 with the body {error: "Invalid credentials"} and
    no header, both when no account has that email and when the account
    found does not verify the password. *)
Theorem login_invalid_credentials_is_uniform
    (form : gmap string JsValue) (ve : JsValue) (p : string) (w : World) :
  form !! "email" = Some ve ->
  form !! "password" = Some (JString p) ->
  falsy (Some ve) = false ->
  falsy (Some (JString p)) = false ->
  next_fails w = false ->
  List.filter (Db.email_is ve) (users w) = []
  \/ (exists (u : User) (rest : list User),
         List.filter (Db.email_is ve) (users w) = u :: rest
         /\ Bcrypt.compare p (user_password u) = false) ->
  fst (Login.POST (Some form) w)
  = Returned {| status := 401;
                body := JObject [("error", "Invalid credentials")];
                headers := [] |}.
Proof.
  intros He Hp Hne Hnp Hup Hcase.
  rewrite (login_run form ve p w He Hp Hne Hnp Hup).
  destruct Hcase as [-> | (u & rest & -> & ->)]; reflexivity.
Qed.

(** X4.  Whatever the request and whichever query fails, a login leaves
    the accounts, the auto-increment counter, the alumni, the random
    source and the clock as they were: it only reads. *)
Theorem login_only_reads (req : RequestBody) (w : World) :
  let w' := snd (Login.POST req w) in
  users w' = users w
  /\ auto_increment w' = auto_increment w
  /\ alumni w' = alumni w
  /\ random w' = random w
  /\ clock w' = clock w.
Proof.
  cbv zeta.
  destruct (login_cases req w) as (r & w' & Hrun & Hu & Ha & Hal & Hr & Hc & _).
  rewrite Hrun. cbn [snd]. repeat split; assumption.
Qed.

(** X5.  A login that is answered with 200 was made with a password that
    bcrypt verified against the stored hash of the first account the
    lookup found for the email sent; there is no other way to the
    session cookie. *)
Theorem login_200_needs_verified_password
    (req : RequestBody) (w : World) (r : Response) (w' : World) :
  Login.POST req w = (Returned r, w') ->
  status r = 200 ->
  exists (form : gmap string JsValue) (ve : JsValue) (p : string) (u : User)
    (rest : list User),
    req = Some form
    /\ form !! "email" = Some ve
    /\ form !! "password" = Some (JString p)
    /\ List.filter (Db.email_is ve) (users w) = u :: rest
    /\ Bcrypt.compare p (user_password u) = true.
Proof.
  intros Hrun Hst.
  destruct (login_cases req w) as (r0 & w0 & Hrun0 & _ & _ & _ & _ & _ & Hcase).
  rewrite Hrun in Hrun0. injection Hrun0 as <- <-.
  destruct Hcase as [->|[[-> _]|[->|Hok]]]; try discriminate Hst.
  destruct Hok as (form & ve & p & u & rest & Hreq & He & Hp & Hrows & Hcmp & _).
  exists form, ve, p, u, rest. repeat split; assumption.
Qed.

(** X6.  When two stored accounts answer the lookup, only the first
    decides: if the password does not verify against the first one's hash
    the login is refused with 401, also when it would verify against the
    second. *)
Theorem login_first_account_decides
    (form : gmap string JsValue) (e p : string) (w : World)
    (u1 u2 : User) (rest : list User) :
  form !! "email" = Some (JString e) ->
  form !! "password" = Some (JString p) ->
  falsy (Some (JString e)) = false ->
  falsy (Some (JString p)) = false ->
  next_fails w = false ->
  List.filter (Db.email_is (JString e)) (users w) = u1 :: u2 :: rest ->
  Bcrypt.compare p (user_password u1) = false ->
  Bcrypt.compare p (user_password u2) = true ->
  fst (Login.POST (Some form) w)
  = Returned {| status := 401;
                body := JObject [("error", "Invalid credentials")];
                headers := [] |}.
Proof.
  intros He Hp Hfe Hfp Hup Hrows Hc1 _.
  rewrite (login_run form (JString e) p w He Hp Hfe Hfp Hup), Hrows, Hc1.
  reflexivity.
Qed.

End LoginFacts.

(** ** Presence is truthiness *)
Section PresenceFacts.

Context {B : Backend}.

(** C9.  In the registration and in the login, a required member that is
    present with the empty string as its value is treated exactly as the
    same request without that member: both are answered with the 400
    validation error and leave the world as it was. *)
Theorem empty_member_is_treated_as_absent
    (form : gmap string JsValue) (w : World) (k : string) :
  (k = "name" \/ k = "email" \/ k = "password" ->
   Register.POST (Some (<[k := JString ""]> form)) w
   = Register.POST (Some (delete k form)) w
   /\ Register.POST (Some (<[k := JString ""]> form)) w
      = (Returned {| status := 400;
                     body := JObject [("error", "Missing fields")];
                     headers := [] |}, w))
  /\ (k = "email" \/ k = "password" ->
      Login.POST (Some (<[k := JString ""]> form)) w
      = Login.POST (Some (delete k form)) w
      /\ Login.POST (Some (<[k := JString ""]> form)) w
         = (Returned {| status := 400;
                        body := JObject [("error", "Email and password are required")];
                        headers := [] |}, w)).
Proof.
  split.
  - intros Hk.
    assert (Hins : falsy (<[k := JString ""]> form !! "name")
                   || falsy (<[k := JString ""]> form !! "email")
                   || falsy (<[k := JString ""]> form !! "password") = true).
    { destruct Hk as [-> | [-> | ->]]; rewrite lookup_insert_eq; cbn [falsy];
        rewrite ?orb_true_r; reflexivity. }
    assert (Hdel : falsy (delete k form !! "name")
                   || falsy (delete k form !! "email")
                   || falsy (delete k form !! "password") = true).
    { destruct Hk as [-> | [-> | ->]]; rewrite lookup_delete_eq; cbn [falsy];
        rewrite ?orb_true_r; reflexivity. }
    rewrite !register_missing_fields by assumption. split; reflexivity.
  - intros Hk.
    assert (Hins : falsy (<[k := JString ""]> form !! "email")
                   || falsy (<[k := JString ""]> form !! "password") = true).
    { destruct Hk as [-> | ->]; rewrite lookup_insert_eq; cbn [falsy];
        rewrite ?orb_true_r; reflexivity. }
    assert (Hdel : falsy (delete k form !! "email")
                   || falsy (delete k form !! "password") = true).
    { destruct Hk as [-> | ->]; rewrite lookup_delete_eq; cbn [falsy];
        rewrite ?orb_true_r; reflexivity. }
    rewrite !login_missing_fields by assumption. split; reflexivity.
Qed.

End PresenceFacts.

(** ** The handlers on the sample deployment *)

Lemma login_token_is_account_id_and_clock_witness :
  exists (r : Response) (w' : World),
    Login.POST (B := Sample.backend) (Some (Sample.jane_login "secure123"))
      Sample.registered
    = (Returned r, w')
    /\ status r = 200
    /\ exists u : User,
         List.filter (Db.email_is (B := Sample.backend) (JString "jane@example.com"))
           (users Sample.registered) = [u]
         /\ user_id u = 1
         /\ headers r
            = [("Set-Cookie",
                "session_token=1-1700000000000; Max-Age=3600; Path=/; HttpOnly")].
Proof.
  eexists _, _. split; [vm_compute; reflexivity|]. split; [reflexivity|].
  destruct (login_token_is_account_id_and_clock (B := Sample.backend)
              (Some (Sample.jane_login "secure123")) Sample.registered
              _ _ eq_refl eq_refl)
    as (form & ve & p & u & rest & Hreq & He & _ & Hrows & _ & _ & _ & _).
  injection Hreq as <-. vm_compute in He. injection He as <-.
  vm_compute in Hrows. injection Hrows as <- <-.
  eexists. split; [vm_compute; reflexivity|]. split; reflexivity.
Defined.

(** C3 as stated fails: with the same accounts and the same clock reading,
    two readings of the random source give the same token, here and for
    every pair of successful logins. *)
Lemma login_token_ignores_random_source :
  (fst (Login.POST (B := Sample.backend) (Some (Sample.jane_login "secure123"))
          Sample.registered)
   = Returned
       {| status := 200;
          body := JObject [("message", "Login successful")];
          headers :=
            [("Set-Cookie",
              "session_token=1-1700000000000; Max-Age=3600; Path=/; HttpOnly")] |}
   /\ fst (Login.POST (B := Sample.backend) (Some (Sample.jane_login "secure123"))
             (Sample.reseeded Sample.registered [99; 7]))
      = Returned
          {| status := 200;
             body := JObject [("message", "Login successful")];
             headers :=
               [("Set-Cookie",
                 "session_token=1-1700000000000; Max-Age=3600; Path=/; HttpOnly")] |})
  /\ (forall (B : Backend) (req : RequestBody) (w1 w2 : World)
        (r1 r2 : Response) (w1' w2' : World),
         users w1 = users w2 ->
         clock w1 = clock w2 ->
         Login.POST req w1 = (Returned r1, w1') ->
         Login.POST req w2 = (Returned r2, w2') ->
         status r1 = 200 ->
         status r2 = 200 ->
         headers r1 = headers r2).
Proof.
  split; [split; vm_compute; reflexivity|].
  intros B req w1 w2 r1 r2 w1' w2' Hu Hc Hrun1 Hrun2 Hst1 Hst2.
  destruct (login_success_inv req w1 r1 w1' Hrun1 Hst1)
    as (f1 & e1 & p1 & u1 & rest1 & Hreq1 & He1 & _ & Hrows1 & _ & ->).
  destruct (login_success_inv req w2 r2 w2' Hrun2 Hst2)
    as (f2 & e2 & p2 & u2 & rest2 & Hreq2 & He2 & _ & Hrows2 & _ & ->).
  assert (f1 = f2) by congruence. subst f2.
  assert (e1 = e2) by congruence. subst e2.
  rewrite Hu, Hrows2 in Hrows1. injection Hrows1 as <- _.
  now rewrite Hc.
Qed.

Lemma login_invalid_credentials_is_uniform_witness :
  fst (Login.POST (B := Sample.backend) (Some (Sample.jane_login "wrong"))
         Sample.registered)
  = Returned {| status := 401;
                body := JObject [("error", "Invalid credentials")];
                headers := [] |}
  /\ fst (Login.POST (B := Sample.backend)
            (Some (<["email" := JString "nobody@example.com"]>
                     (Sample.jane_login "wrong")))
            Sample.registered)
     = Returned {| status := 401;
                   body := JObject [("error", "Invalid credentials")];
                   headers := [] |}.
Proof.
  split.
  - apply (login_invalid_credentials_is_uniform (B := Sample.backend)
             (Sample.jane_login "wrong") (JString "jane@example.com") "wrong"
             Sample.registered); try reflexivity.
    right. eexists _, _. split; vm_compute; reflexivity.
  - apply (login_invalid_credentials_is_uniform (B := Sample.backend)
             (<["email" := JString "nobody@example.com"]> (Sample.jane_login "wrong"))
             (JString "nobody@example.com") "wrong" Sample.registered);
      try reflexivity.
    left. reflexivity.
Defined.

(** C4 as stated fails: the password 12345, a number, is not empty to the
    presence test; with it the login is answered 500 for the email of a
    stored account, where bcrypt rejects the number, and 401 for an email
    that no account has. *)
Lemma login_numeric_password_tells_accounts_apart :
  falsy (Demo.numeric_login "jane@example.com" !! "email") = false
  /\ falsy (Demo.numeric_login "jane@example.com" !! "password") = false
  /\ List.filter (Db.email_is (B := Sample.backend) (JString "jane@example.com"))
       (users Sample.registered) <> []
  /\ fst (Login.POST (B := Sample.backend)
            (Some (Demo.numeric_login "jane@example.com")) Sample.registered)
     = Returned {| status := 500;
                   body := JObject [("error", "Server error")];
                   headers := [] |}
  /\ List.filter (Db.email_is (B := Sample.backend) (JString "nobody@example.com"))
       (users Sample.registered) = []
  /\ fst (Login.POST (B := Sample.backend)
            (Some (Demo.numeric_login "nobody@example.com")) Sample.registered)
     = Returned {| status := 401;
                   body := JObject [("error", "Invalid credentials")];
                   headers := [] |}.
Proof. repeat split; vm_compute; (reflexivity || discriminate). Qed.

Lemma register_existing_email_conflicts_witness :
  (exists u : User,
      In u (users Sample.registered) /\ user_email u = "jane@example.com")
  /\ exists w' : World,
       Register.POST (B := Sample.backend) (Some Sample.jane) Sample.registered
       = (Returned {| status := 409;
                      body := JObject [("error", "User already exists")];
                      headers := [] |}, w')
       /\ users w' = users Sample.registered
       /\ auto_increment w' = auto_increment Sample.registered.
Proof.
  assert (Hex : exists u : User,
             In u (users Sample.registered) /\ user_email u = "jane@example.com").
  { eexists. split; [left; reflexivity|reflexivity]. }
  split; [exact Hex|].
  apply (register_existing_email_conflicts (B := Sample.backend)
           Sample.jane "jane@example.com" Sample.registered);
    try reflexivity; [|exact Hex].
  intros s. apply String.eqb_refl.
Defined.

Lemma register_success_is_a_fixed_message_witness :
  exists (r : Response) (w' : World),
    Register.POST (B := Sample.backend) (Some Sample.jane) Sample.world
    = (Returned r, w')
    /\ status r = 201
    /\ r = {| status := 201;
              body := JObject [("message", "Registration successful")];
              headers := [] |}.
Proof.
  eexists _, _. split; [vm_compute; reflexivity|]. split; [reflexivity|].
  eapply (register_success_is_a_fixed_message (B := Sample.backend)
            (Some Sample.jane) Sample.world).
  - vm_compute. reflexivity.
  - reflexivity.
Defined.

(** C8 as stated fails: Jane's registration succeeds, her account is
    stored under the identifier 1, and the response shows no 1 anywhere. *)
Lemma register_response_lacks_identifier :
  fst (Register.POST (B := Sample.backend) (Some Sample.jane) Sample.world)
  = Returned {| status := 201;
                body := JObject [("message", "Registration successful")];
                headers := [] |}
  /\ map user_id
       (users (snd (Register.POST (B := Sample.backend) (Some Sample.jane)
                      Sample.world)))
     = [1]
  /\ body_shows "1"
       {| status := 201;
          body := JObject [("message", "Registration successful")];
          headers := [] |}
     = false.
Proof. repeat split; vm_compute; reflexivity. Qed.

Lemma empty_member_is_treated_as_absent_witness :
  Register.POST (B := Sample.backend)
    (Some (<["password" := JString ""]> Sample.jane)) Sample.world
  = Register.POST (B := Sample.backend) (Some (delete "password" Sample.jane))
      Sample.world
  /\ Login.POST (B := Sample.backend)
       (Some (<["email" := JString ""]> (Sample.jane_login "secure123")))
       Sample.registered
     = Login.POST (B := Sample.backend)
         (Some (delete "email" (Sample.jane_login "secure123"))) Sample.registered.
Proof.
  split.
  - destruct (empty_member_is_treated_as_absent (B := Sample.backend)
                Sample.jane Sample.world "password") as [Hreg _].
    apply Hreg. right. right. reflexivity.
  - destruct (empty_member_is_treated_as_absent (B := Sample.backend)
                (Sample.jane_login "secure123") Sample.registered "email")
      as [_ Hlog].
    apply Hlog. left. reflexivity.
Defined.

Lemma register_validation_precedes_gateway_witness :
  falsy (delete "email" Sample.jane !! "email") = true
  /\ Register.POST (B := Sample.backend) (Some (delete "email" Sample.jane))
       Sample.registered
     = (Returned {| status := 400;
                    body := JObject [("error", "Missing fields")];
                    headers := [] |}, Sample.registered).
Proof.
  split; [reflexivity|].
  apply (register_validation_precedes_gateway (B := Sample.backend)
           (delete "email" Sample.jane) Sample.registered).
  right. left. reflexivity.
Defined.

(** The scenario of the specification, end to end: register, register
    again, log in with a wrong password, log in. *)
Example scenario_statuses :
  let POST_register := Register.POST (B := Sample.backend) (Some Sample.jane) in
  let POST_login pw := Login.POST (B := Sample.backend) (Some (Sample.jane_login pw)) in
  let status_of (o : Outcome Response * World) :=
    match fst o with Returned r => Some (status r) | Thrown => None end in
  status_of (POST_register Sample.world) = Some 201
  /\ status_of (POST_register Sample.registered) = Some 409
  /\ status_of (POST_login "wrong" Sample.registered) = Some 401
  /\ status_of (POST_login "secure123" Sample.registered) = Some 200.
Proof. repeat split; vm_compute; reflexivity. Qed.

(** * Further properties of the handlers *)

(** ** Registration, path by path *)
Section RegisterMore.

Context {B : Backend}.

(** X1.  A registration with non-empty name, email and password, all
    strings, for an email the lookup does not find, with both statements
    answered and optional members the server accepts: the response is 201
    and the table gains exactly one account, last, under the next
    auto-increment id, with the name and email as sent, the optional
    members as the server keeps them (NULL when absent) and, as its
    password, the bcrypt hash made with the salt drawn from the random
    source; the counter moves by one and one random value is used up. *)
Theorem register_stores_the_account
    (form : gmap string JsValue) (n e p : string) (gy mj : option string)
    (w : World) :
  form !! "name" = Some (JString n) ->
  form !! "email" = Some (JString e) ->
  form !! "password" = Some (JString p) ->
  falsy (Some (JString n)) = false ->
  falsy (Some (JString e)) = false ->
  falsy (Some (JString p)) = false ->
  Db.nullable_column (form !! "graduationYear") = Some gy ->
  Db.nullable_column (form !! "major") = Some mj ->
  List.filter (Db.email_is (JString e)) (users w) = [] ->
  fails_at 0 w = false ->
  fails_at 1 w = false ->
  exists (h : string) (w' : World),
    Register.POST (Some form) w
    = (Returned {| status := 201;
                   body := JObject [("message", "Registration successful")];
                   headers := [] |}, w')
    /\ Bcrypt.hash p (Bcrypt.genSalt 10 (hd 0 (random w))) = Some h
    /\ users w'
       = users w
         ++ [{| user_id := auto_increment w; user_name := n; user_email := e;
                user_password := h; user_graduation_year := gy;
                user_major := mj |}]
    /\ auto_increment w' = auto_increment w + 1
    /\ random w' = tail (random w).
Proof.
  intros Hn He Hp Hfn Hfe Hfp Hgy Hmj Hfresh Hup0 Hup1.
  rewrite (register_run form _ _ _ w Hn He Hp Hfn Hfe Hfp). cbv zeta.
  rewrite fails_at_0 in Hup0. rewrite Hup0, Hfresh, Hup1, Hgy, Hmj.
  cbn [List.length Nat.ltb Nat.leb Db.text_column].
  rewrite (existsb_filter_nil _ _ Hfresh), andb_false_r.
  eexists _, _. split; [reflexivity|]. rewrite hash_genSalt_10.
  repeat split; reflexivity.
Qed.

End RegisterMore.

(** ** Registration and login together *)
Section Together.

Context {B : Backend}.

Lemma filter_app_fresh (v : JsValue) (l : list User) (u : User) :
  List.filter (Db.email_is v) l = [] ->
  email_eq (user_email u) v = true ->
  List.filter (Db.email_is v) (l ++ [u]) = [u].
Proof.
  intros Hnil Hu. rewrite List.filter_app, Hnil. cbn [List.filter app].
  unfold Db.email_is at 1. now rewrite Hu.
Qed.

(** What a registration answered with 201 tells about a request whose
    email and password are strings. *)
Lemma register_201_inv
    (form : gmap string JsValue) (e p : string) (w w1 : World) (r1 : Response) :
  Register.POST (Some form) w = (Returned r1, w1) ->
  status r1 = 201 ->
  form !! "email" = Some (JString e) ->
  form !! "password" = Some (JString p) ->
  exists (n h : string) (gy mj : option string),
    falsy (form !! "name") = false
    /\ falsy (Some (JString e)) = false
    /\ falsy (Some (JString p)) = false
    /\ List.filter (Db.email_is (JString e)) (users w) = []
    /\ Bcrypt.hash p (Bcrypt.genSalt 10 (hd 0 (random w))) = Some h
    /\ users w1
       = users w
         ++ [{| user_id := auto_increment w; user_name := n; user_email := e;
                user_password := h; user_graduation_year := gy;
                user_major := mj |}]
    /\ clock w1 = clock w.
Proof.
  intros Hrun Hst He Hp.
  destruct (register_cases (Some form) w) as (r & w' & Hrun' & _ & Hclock & Hcase).
  rewrite Hrun in Hrun'. injection Hrun' as <- <-.
  destruct Hcase as [(-> & _)|[(-> & _)|[(-> & _)|(_ & Hok)]]];
    try discriminate Hst.
  destruct Hok as (form' & ve & n & e' & p' & h & gy & mj & Hreq & _ & He' & Hce
                   & Hp' & _ & _ & Hfresh & Hhash & Hu & _).
  injection Hreq as <-.
  assert (ve = JString e) by congruence. subst ve.
  assert (p' = p) by congruence. subst p'.
  cbn [Db.text_column] in Hce. injection Hce as <-.
  assert (Hf : falsy (form !! "name") || falsy (form !! "email")
               || falsy (form !! "password") = false).
  { destruct (falsy (form !! "name") || falsy (form !! "email")
              || falsy (form !! "password")) eqn:Hf; [|reflexivity].
    rewrite register_missing_fields in Hrun by assumption.
    injection Hrun as <- _. discriminate Hst. }
  rewrite He, Hp in Hf.
  apply orb_false_iff in Hf as [Hf Hfp]. apply orb_false_iff in Hf as [Hfn Hfe].
  exists n, h, gy, mj. repeat split; assumption.
Qed.

(** X7.  After a registration that was answered with 201, a login with
    the same email and password is answered with 200 and sets the session
    cookie for the id the account was stored under.  The email comparison
    finds the email equal to itself, the bcrypt digest has its 31
    characters, and the login's lookup is answered. *)
Theorem register_then_login_succeeds
    (form login_form : gmap string JsValue) (e p : string)
    (w w1 : World) (r1 : Response) :
  email_eq e (JString e) = true ->
  (forall cost salt password,
      String.length (eksblowfish cost salt password) = 31%nat) ->
  Register.POST (Some form) w = (Returned r1, w1) ->
  status r1 = 201 ->
  form !! "email" = Some (JString e) ->
  form !! "password" = Some (JString p) ->
  login_form !! "email" = Some (JString e) ->
  login_form !! "password" = Some (JString p) ->
  next_fails w1 = false ->
  fst (Login.POST (Some login_form) w1)
  = Returned
      {| status := 200;
         body := JObject [("message", "Login successful")];
         headers :=
           [("Set-Cookie",
             serialize "session_token"
               (Login.session_token (auto_increment w) (clock w)))] |}.
Proof.
  intros Hrefl Hlen Hrun Hst He Hp Hle Hlp Hup.
  destruct (register_201_inv form e p w w1 r1 Hrun Hst He Hp)
    as (n & h & gy & mj & _ & Hfe & Hfp & Hfresh & Hhash & Hu & Hclock).
  rewrite (login_run login_form (JString e) p w1 Hle Hlp Hfe Hfp Hup).
  rewrite Hu.
  rewrite (filter_app_fresh (JString e) (users w)) by (exact Hfresh || exact Hrefl).
  cbn [user_password user_id].
  rewrite (compare_hash p (hd 0 (random w)) h Hlen Hhash), Hclock.
  reflexivity.
Qed.

(** X8.  After a registration that was answered with 201, the same
    request sent again is answered with 409 and stores nothing, when the
    email comparison finds the email equal to itself and the lookup is
    answered. *)
Theorem register_twice_conflicts
    (form : gmap string JsValue) (e : string) (w w1 : World) (r1 : Response) :
  email_eq e (JString e) = true ->
  Register.POST (Some form) w = (Returned r1, w1) ->
  status r1 = 201 ->
  form !! "email" = Some (JString e) ->
  fails_at 0 w1 = false ->
  exists w2 : World,
    Register.POST (Some form) w1
    = (Returned {| status := 409;
                   body := JObject [("error", "User already exists")];
                   headers := [] |}, w2)
    /\ users w2 = users w1
    /\ auto_increment w2 = auto_increment w1.
Proof.
  intros Hrefl Hrun Hst He Hup.
  destruct (register_cases (Some form) w) as (r & w' & Hrun' & _ & _ & Hcase).
  rewrite Hrun in Hrun'. injection Hrun' as <- <-.
  destruct Hcase as [(-> & _)|[(-> & _)|[(-> & _)|(_ & Hok)]]];
    try discriminate Hst.
  destruct Hok as (form' & ve & n & e' & p & h & gy & mj & Hreq & _ & He' & Hce
                   & Hp & _ & _ & Hfresh & _ & Hu & _).
  injection Hreq as <-.
  assert (ve = JString e) by congruence. subst ve.
  cbn [Db.text_column] in Hce. injection Hce as <-.
  assert (Hf : falsy (form !! "name") || falsy (form !! "email")
               || falsy (form !! "password") = false).
  { destruct (falsy (form !! "name") || falsy (form !! "email")
              || falsy (form !! "password")) eqn:Hf; [|reflexivity].
    rewrite register_missing_fields in Hrun by assumption.
    injection Hrun as <- _. discriminate Hst. }
  apply orb_false_iff in Hf as [Hf Hfp]. apply orb_false_iff in Hf as [Hfn Hfe].
  destruct (falsy_false_some _ Hfn) as [vn Hn].
  rewrite Hn in Hfn. rewrite He in Hfe. rewrite Hp in Hfp.
  rewrite (register_run form vn (JString e) (JString p) w1 Hn He Hp Hfn Hfe Hfp).
  cbv zeta. rewrite fails_at_0 in Hup. rewrite Hup.
  assert (Hrows : (0 <? List.length
                          (List.filter (Db.email_is (JString e)) (users w1)))%nat
                  = true).
  { rewrite Hu.
    rewrite (filter_app_fresh (JString e) (users w))
      by (exact Hfresh || exact Hrefl).
    reflexivity. }
  rewrite Hrows.
  eexists. split; [reflexivity|]. split; reflexivity.
Qed.

End Together.

(** ** More on the alumni search *)
Section SearchMore.

Context {B : Backend}.

Import Like LikeEdge.

(** X9.  Whatever the query parameter and whether or not the query fails,
    the alumni route leaves the accounts, the counter, the alumni, the
    random source and the clock as they were, sends exactly one statement,
    and writes to the console exactly when that statement fails. *)
Theorem search_only_reads (param : option string) (w : World) :
  let w' := snd (AlumniTracer.GET param w) in
  let term := "%" +:+ AlumniTracer.query_or_empty param +:+ "%" in
  users w' = users w
  /\ auto_increment w' = auto_increment w
  /\ alumni w' = alumni w
  /\ random w' = random w
  /\ clock w' = clock w
  /\ faults w' = tail (faults w)
  /\ log w'
     = log w
       ++ Query (sql_text SearchAlumni) [Some (JString term); Some (JString term)]
          :: (if next_fails w then [ConsoleError] else []).
Proof.
  cbv zeta. rewrite GET_run. cbv zeta.
  destruct (next_fails w); cbn; rewrite <- ?app_assoc; repeat split; reflexivity.
Qed.

(** X10.  When the statement fails, the alumni route answers with status
    500 and the body {error: "Failed to fetch alumni data"}, for every
    query parameter. *)
Theorem search_fault_is_500 (param : option string) (w : World) :
  next_fails w = true ->
  fst (AlumniTracer.GET param w)
  = Returned {| status := 500;
                body := JObject [("error", "Failed to fetch alumni data")];
                headers := [] |}.
Proof. intros Hup. rewrite GET_run. cbv zeta. rewrite Hup. reflexivity. Qed.

(** X11.  A request without the `query` parameter is answered like one
    with the empty query: with every record, in table order. *)
Theorem search_without_parameter_lists_everyone (w : World) :
  next_fails w = false ->
  fst (AlumniTracer.GET None w)
  = Returned {| status := 200;
                body := JRows (Db.AlumniRows (alumni w));
                headers := [] |}
  /\ AlumniTracer.GET None w = AlumniTracer.GET (Some "") w.
Proof.
  intros Hup. split; [|reflexivity].
  rewrite GET_run. cbv zeta. rewrite Hup. cbn [fst]. unfold NextResponse_json.
  do 4 f_equal. apply filter_all. intros a.
  unfold Db.alumni_where.
  change (AlumniTracer.query_or_empty None) with EmptyString.
  rewrite !like_wrapped_plain by reflexivity.
  now rewrite contains_ci_empty.
Qed.

Lemma parse_underscores (n : nat) (rest : string) :
  parse (underscores n +:+ rest) = repeat One n ++ parse rest.
Proof.
  induction n as [|n IH]; [reflexivity|].
  cbn [underscores repeat app]. rewrite append_cons, parse_cons.
  cbn. now rewrite IH.
Qed.

Lemma matches_ones_many (n : nat) (s : string) :
  matches (repeat One n ++ [Many]) s = (n <=? String.length s)%nat.
Proof.
  revert s. induction n as [|n IH]; intros s.
  - cbn [repeat app]. apply matches_many_nil.
  - destruct s as [|c s]; [reflexivity|].
    cbn [repeat app matches String.length]. apply IH.
Qed.

Lemma matches_many_ones_many (n : nat) (s : string) :
  matches (Many :: repeat One n ++ [Many]) s = (n <=? String.length s)%nat.
Proof.
  induction s as [|c s IH].
  - rewrite matches_many, matches_ones_many. apply orb_false_r.
  - rewrite matches_many, matches_ones_many, IH. cbn [String.length].
    destruct (Nat.leb_spec n (S (String.length s)));
      destruct (Nat.leb_spec n (String.length s)); try reflexivity; lia.
Qed.

(** X12.  A query of [n] underscores is a question about length: it is
    answered with the records whose name or whose graduation year, as
    text, has at least [n] characters. *)
Theorem search_underscores_matches_by_length (n : nat) (w : World) :
  next_fails w = false ->
  AlumniTracer.searchAlumni (underscores n) w
  = Some (List.filter
            (fun a => (n <=? String.length (name a))%nat
                      || (n <=? String.length (Db.year_text a))%nat)
            (alumni w)).
Proof.
  intros Hup. rewrite searchAlumni_rows by assumption. f_equal.
  apply List.filter_ext. intros a. unfold Db.alumni_where, like.
  change (parse ("%" +:+ underscores n +:+ "%"))
    with (Many :: parse (underscores n +:+ "%")).
  rewrite parse_underscores.
  change (parse "%") with [Many].
  now rewrite !matches_many_ones_many.
Qed.

Lemma matches_lits_exact (t s : string) : matches (lits t) s = exact_ci t s.
Proof.
  revert s. induction t as [|a t IH]; intros s.
  - destruct s; reflexivity.
  - destruct s as [|b s]; [reflexivity|].
    cbn [lits matches exact_ci]. now rewrite IH.
Qed.

Lemma matches_many_lits (t s : string) :
  matches (Many :: lits t) s = ends_with_ci t s.
Proof.
  induction s as [|c s IH].
  - rewrite matches_many, matches_lits_exact. reflexivity.
  - rewrite matches_many, matches_lits_exact, IH. reflexivity.
Qed.

Lemma lits_append (a b : string) : lits (a +:+ b) = lits a ++ lits b.
Proof.
  induction a as [|c a IH]; [reflexivity|].
  rewrite append_cons. cbn [lits app]. now rewrite IH.
Qed.

(** X13.  A query that ends in a backslash turns the closing wildcard of
    the search term into a literal percent sign: for plain text [q], the
    query [q] followed by a backslash is answered with the records whose
    name or graduation year ends in [q] followed by `%`. *)
Theorem search_trailing_backslash_anchors (q : string) (w : World) :
  plain q = true ->
  next_fails w = false ->
  AlumniTracer.searchAlumni (q +:+ "\") w
  = Some (List.filter
            (fun a => ends_with_ci (q +:+ "%") (name a)
                      || ends_with_ci (q +:+ "%") (Db.year_text a))
            (alumni w)).
Proof.
  intros Hq Hup. rewrite searchAlumni_rows by assumption. f_equal.
  apply List.filter_ext. intros a. unfold Db.alumni_where, like.
  change (parse ("%" +:+ (q +:+ "\") +:+ "%"))
    with (Many :: parse ((q +:+ "\") +:+ "%")).
  rewrite append_assoc, parse_plain by assumption.
  change (parse ("\" +:+ "%")) with (lits "%").
  rewrite <- lits_append. now rewrite !matches_many_lits.
Qed.

End SearchMore.

(** ** The session token *)
Section TokenFacts.

Context {B : Backend}.

Import LikeEdge.

Lemma digits_uint (d : Decimal.uint) :
  all_digits (NilEmpty.string_of_uint d) = true.
Proof. induction d; cbn; assumption || reflexivity. Qed.

(** The decimal text of an integer: digits, with a minus sign before them
    for a negative one. *)
Lemma string_of_Z_shape (z : Z) :
  exists (c : ascii) (digits : string),
    all_digits (String c digits) = true
    /\ (string_of_Z z = String c digits
        \/ string_of_Z z = String "-" (String c digits)).
Proof.
  unfold string_of_Z, NilZero.string_of_int, NilZero.string_of_uint.
  destruct (Z.to_int z) as [d|d].
  - destruct d as [|d|d|d|d|d|d|d|d|d|d];
      [exists "0"%char, EmptyString; split; [reflexivity|tauto]
      |eexists _, _; (split; [|left; reflexivity]); exact (digits_uint d)..].
  - destruct d as [|d|d|d|d|d|d|d|d|d|d];
      [exists "0"%char, EmptyString; split; [reflexivity|tauto]
      |eexists _, _; (split; [|right; reflexivity]); exact (digits_uint d)..].
Qed.

Lemma string_of_Z_inj (z1 z2 : Z) : string_of_Z z1 = string_of_Z z2 -> z1 = z2.
Proof.
  intros Heq. apply DecimalZ.to_int_inj.
  assert (Hnn : forall z, Z.to_int z <> Decimal.Pos Decimal.Nil
                          /\ Z.to_int z <> Decimal.Neg Decimal.Nil).
  { intros z. split; intros Hz; pose proof (DecimalZ.of_to z) as Hof;
      rewrite Hz in Hof; cbn in Hof; subst z; discriminate Hz. }
  assert (Hsome : forall z,
             NilZero.int_of_string (string_of_Z z) = Some (Z.to_int z)).
  { intros z. apply NilZero.isi; apply Hnn. }
  pose proof (Hsome z1) as H1. rewrite Heq, Hsome in H1. congruence.
Qed.

(** Digits followed by a hyphen can be read back in one way only. *)
Lemma digits_hyphen_cut (d1 d2 r1 r2 : string) :
  all_digits d1 = true ->
  all_digits d2 = true ->
  d1 +:+ "-" +:+ r1 = d2 +:+ "-" +:+ r2 ->
  d1 = d2 /\ r1 = r2.
Proof.
  revert d2. induction d1 as [|a d1 IH]; intros d2 H1 H2 Heq.
  - destruct d2 as [|b d2].
    + cbn in Heq. injection Heq as ->. split; reflexivity.
    + rewrite append_cons in Heq. cbn [String.append] in Heq.
      injection Heq as <- _. cbn in H2. discriminate H2.
  - destruct d2 as [|b d2].
    + rewrite append_cons in Heq. cbn [String.append] in Heq.
      injection Heq as -> _. cbn in H1. discriminate H1.
    + rewrite !append_cons in Heq. injection Heq as <- Heq.
      cbn [all_digits] in H1, H2.
      apply andb_true_iff in H1 as [_ H1]. apply andb_true_iff in H2 as [_ H2].
      destruct (IH d2 H1 H2 Heq) as [-> ->]. split; reflexivity.
Qed.

(** X16.  For account ids and clock readings in the safe integer range
    of JavaScript, the session token names its account and its time: two
    tokens made for different accounts, or at different clock readings,
    are different. *)
Theorem session_token_distinguishes (id1 id2 now1 now2 : Z) :
  safe_integer id1 = true ->
  safe_integer id2 = true ->
  safe_integer now1 = true ->
  safe_integer now2 = true ->
  id1 <> id2 \/ now1 <> now2 ->
  Login.session_token id1 now1 <> Login.session_token id2 now2.
Proof.
  intros H1 H2 H3 H4 Hdiff Heq.
  unfold Login.session_token, number_text in Heq.
  rewrite H1, H2, H3, H4 in Heq.
  destruct (string_of_Z_shape id1) as (c1 & g1 & Hd1 & Hs1).
  destruct (string_of_Z_shape id2) as (c2 & g2 & Hd2 & Hs2).
  assert (Hcut : string_of_Z id1 = string_of_Z id2
                 /\ string_of_Z now1 = string_of_Z now2).
  { destruct Hs1 as [Hs1|Hs1]; destruct Hs2 as [Hs2|Hs2];
      rewrite Hs1, Hs2 in Heq |- *.
    - apply digits_hyphen_cut in Heq as [-> ->]; [split; reflexivity|assumption..].
    - rewrite !append_cons in Heq. injection Heq as -> _.
      cbn in Hd1. discriminate Hd1.
    - rewrite !append_cons in Heq. injection Heq as <- _.
      cbn in Hd2. discriminate Hd2.
    - assert (Heq' : String c1 g1 +:+ "-" +:+ string_of_Z now1
                     = String c2 g2 +:+ "-" +:+ string_of_Z now2).
      { cbn [String.append] in Heq |- *. congruence. }
      apply digits_hyphen_cut in Heq' as [-> ->];
        [split; reflexivity|assumption..]. }
  destruct Hcut as [Hid Hnow].
  apply string_of_Z_inj in Hid. apply string_of_Z_inj in Hnow. tauto.
Qed.

End TokenFacts.

(** ** Failing storage and bodies that do not parse *)
Section Failures.

Context {B : Backend}.

(** X17.  When the lookup was answered, found nothing, and the insert
    then fails, the registration is answered with 500 "Server error": no
    account is stored and the counter stays, although the salt was drawn
    and the password hashed; the log shows the lookup, the salt, the
    hashing, the insert and the console message, in that order. *)
Theorem register_failed_insert_stores_nothing
    (form : gmap string JsValue) (n e p : string) (w : World) :
  form !! "name" = Some (JString n) ->
  form !! "email" = Some (JString e) ->
  form !! "password" = Some (JString p) ->
  falsy (Some (JString n)) = false ->
  falsy (Some (JString e)) = false ->
  falsy (Some (JString p)) = false ->
  List.filter (Db.email_is (JString e)) (users w) = [] ->
  fails_at 0 w = false ->
  fails_at 1 w = true ->
  exists (h : string) (w' : World),
    Register.POST (Some form) w
    = (Returned {| status := 500;
                   body := JObject [("error", "Server error")];
                   headers := [] |}, w')
    /\ users w' = users w
    /\ auto_increment w' = auto_increment w
    /\ random w' = tail (random w)
    /\ Bcrypt.hash p (Bcrypt.genSalt 10 (hd 0 (random w))) = Some h
    /\ log w'
       = log w
         ++ [Query "SELECT id FROM users WHERE email = ?" [Some (JString e)];
             GenSalt 10;
             BcryptHash p (Bcrypt.genSalt 10 (hd 0 (random w)));
             Query
               "INSERT INTO users (name, email, password, graduation_year, major) VALUES (?, ?, ?, ?, ?)"
               [Some (JString n); Some (JString e); Some (JString h);
                form !! "graduationYear"; form !! "major"];
             ConsoleError].
Proof.
  intros Hn He Hp Hfn Hfe Hfp Hfresh Hup0 Hup1.
  rewrite (register_run form _ _ _ w Hn He Hp Hfn Hfe Hfp). cbv zeta.
  rewrite fails_at_0 in Hup0. rewrite Hup0, Hfresh, Hup1.
  cbn [List.length Nat.ltb Nat.leb].
  eexists _, _. split; [reflexivity|]. rewrite hash_genSalt_10.
  cbn. rewrite <- !app_assoc. repeat split; reflexivity.
Qed.

(** X18.  A registration or a login whose body does not parse is answered
    with 500 "Server error" after one console message and nothing else;
    one whose lookup fails is answered the same way after the lookup and
    the console message.  In all four cases the accounts, the counter and
    the random source are what they were. *)
Theorem server_errors_leave_the_store
    (form : gmap string JsValue) (w : World) :
  let server_error :=
    {| status := 500; body := JObject [("error", "Server error")];
       headers := [] |} in
  Register.POST None w = (Returned server_error, emit ConsoleError w)
  /\ Login.POST None w = (Returned server_error, emit ConsoleError w)
  /\ (next_fails w = true ->
      falsy (form !! "name") || falsy (form !! "email")
      || falsy (form !! "password") = false ->
      exists w' : World,
        Register.POST (Some form) w = (Returned server_error, w')
        /\ users w' = users w
        /\ auto_increment w' = auto_increment w
        /\ random w' = random w
        /\ log w'
           = log w ++ [Query "SELECT id FROM users WHERE email = ?"
                         [form !! "email"]; ConsoleError])
  /\ (next_fails w = true ->
      falsy (form !! "email") || falsy (form !! "password") = false ->
      exists w' : World,
        Login.POST (Some form) w = (Returned server_error, w')
        /\ users w' = users w
        /\ auto_increment w' = auto_increment w
        /\ random w' = random w
        /\ log w'
           = log w ++ [Query "SELECT id, password FROM users WHERE email = ?"
                         [form !! "email"]; ConsoleError]).
Proof.
  cbv zeta. split; [reflexivity|]. split; [reflexivity|]. split.
  - intros Hup Hf.
    unfold Register.POST, try_catch, request_json, mbind, handler_bind, mret,
      handler_ret, throw, console_error, tell.
    rewrite Hf. unfold Db.pool_query. rewrite Hup.
    eexists. split; [reflexivity|]. cbn. rewrite <- app_assoc.
    repeat split; reflexivity.
  - intros Hup Hf.
    unfold Login.POST, try_catch, request_json, mbind, handler_bind, mret,
      handler_ret, throw, console_error, tell.
    rewrite Hf. unfold Db.pool_query. rewrite Hup.
    eexists. split; [reflexivity|]. cbn. rewrite <- app_assoc.
    repeat split; reflexivity.
Qed.

(** X19.  The three routes always answer and never let an exception out.
    The registration answers with 201, 400, 409 or 500, the login with
    200, 400, 401 or 500, the search with 200 or 500; an answer outside
    the 2xx range always has an `error` member in its body, one inside
    never has. *)
Theorem routes_always_answer
    (req : RequestBody) (param : option string) (w : World) :
  (exists (r : Response) (w' : World),
      Register.POST req w = (Returned r, w')
      /\ In (status r) [201; 400; 409; 500]
      /\ (Page.ok r = false <-> is_Some (Page.data_error (body r))))
  /\ (exists (r : Response) (w' : World),
         Login.POST req w = (Returned r, w')
         /\ In (status r) [200; 400; 401; 500]
         /\ (Page.ok r = false <-> is_Some (Page.data_error (body r))))
  /\ (exists (r : Response) (w' : World),
         AlumniTracer.GET param w = (Returned r, w')
         /\ In (status r) [200; 500]
         /\ (Page.ok r = false <-> is_Some (Page.data_error (body r)))).
Proof.
  assert (Hyes : forall r, Page.ok r = false -> is_Some (Page.data_error (body r))
                           -> Page.ok r = false <-> is_Some (Page.data_error (body r)))
    by tauto.
  assert (Hno : forall r, Page.ok r = true -> Page.data_error (body r) = None
                          -> Page.ok r = false <-> is_Some (Page.data_error (body r))).
  { intros r -> ->. split; [discriminate|]. intros [x Hx]. discriminate Hx. }
  split; [|split].
  - destruct (register_cases req w) as (r & w' & Hrun & _ & _ & Hcase).
    exists r, w'. split; [exact Hrun|].
    destruct Hcase as [(-> & _)|[(-> & _)|[(-> & _)|(-> & _)]]];
      (split; [cbn; tauto|]);
      (apply Hyes; [reflexivity|eexists; reflexivity])
      || (apply Hno; reflexivity).
  - destruct (login_cases req w) as (r & w' & Hrun & _ & _ & _ & _ & _ & Hcase).
    exists r, w'. split; [exact Hrun|].
    destruct Hcase as [->|[(-> & _)|[->|Hok]]];
      try (split; [cbn; tauto|apply Hyes; [reflexivity|eexists; reflexivity]]).
    destruct Hok as (form & e & p & u & rest & _ & _ & _ & _ & _ & ->).
    split; [cbn; tauto|apply Hno; reflexivity].
  - rewrite GET_run. cbv zeta. destruct (next_fails w); eexists _, _;
      (split; [reflexivity|]); (split; [cbn; tauto|]).
    + apply Hyes; [reflexivity|eexists; reflexivity].
    + apply Hno; reflexivity.
Qed.

End Failures.

(** ** The pages *)
Section Pages.

Context {B : Backend}.

Lemma lookup_json_of_form (form : gmap string string) (k : string) :
  (JString <$> form : gmap string JsValue) !! k = JString <$> (form !! k).
Proof. apply lookup_fmap. Qed.

Lemma text_column_of_form (form : gmap string string) (k s : string) :
  Db.text_column ((JString <$> form : gmap string JsValue) !! k) = Some s ->
  form !! k = Some s.
Proof.
  rewrite lookup_json_of_form. destruct (form !! k) as [x|]; cbn; congruence.
Qed.

Lemma nullable_column_of_form (form : gmap string string) (k : string)
    (v : option string) :
  Db.nullable_column ((JString <$> form : gmap string JsValue) !! k) = Some v ->
  form !! k = v.
Proof.
  rewrite lookup_json_of_form. destruct (form !! k) as [x|]; cbn; congruence.
Qed.

(** X20.  Submitting the registration form never changes the form.  When
    the request reaches the route and the response comes back, the page
    either navigates to `/auth/login` with the error cleared, and then
    exactly one account was stored whose name, email, graduation year and
    major are the values of the form, or it does not navigate, nothing
    was stored, and it shows one of the three messages of the route.
    When the request or the response is lost, the page does not navigate
    and shows "An unexpected error occurred"; the store is untouched if
    the request was lost, and is what the route made of it if only the
    response was. *)
Theorem register_page_submit
    (net : Page.Fetch) (s : RegisterPage.State) (w : World) :
  let s' := fst (RegisterPage.handleSubmit net s w) in
  let w' := snd (RegisterPage.handleSubmit net s w) in
  RegisterPage.form s' = RegisterPage.form s
  /\ match net with
     | Page.Delivered =>
         (RegisterPage.pushed s' = RegisterPage.pushed s ++ ["/auth/login"]
          /\ RegisterPage.error s' = Some ""
          /\ exists u : User,
               users w' = users w ++ [u]
               /\ RegisterPage.form s !! "name" = Some (user_name u)
               /\ RegisterPage.form s !! "email" = Some (user_email u)
               /\ RegisterPage.form s !! "graduationYear" = user_graduation_year u
               /\ RegisterPage.form s !! "major" = user_major u)
         \/ (RegisterPage.pushed s' = RegisterPage.pushed s
             /\ users w' = users w
             /\ In (RegisterPage.error s')
                  [Some "Missing fields"; Some "User already exists";
                   Some "Server error"])
     | Page.RequestLost =>
         RegisterPage.pushed s' = RegisterPage.pushed s
         /\ RegisterPage.error s' = Some "An unexpected error occurred"
         /\ w' = w
     | Page.ResponseLost =>
         RegisterPage.pushed s' = RegisterPage.pushed s
         /\ RegisterPage.error s' = Some "An unexpected error occurred"
         /\ w' = snd (Register.POST (Page.json_of_form (RegisterPage.form s)) w)
     end.
Proof.
  cbv zeta. unfold RegisterPage.handleSubmit, Page.fetch.
  destruct net; [|split; [reflexivity|repeat split; reflexivity]..].
  unfold Page.json_of_form.
  destruct (register_cases (Some (JString <$> RegisterPage.form s)) w)
    as (r & w' & Hrun & _ & _ & Hcase).
  rewrite Hrun.
  destruct Hcase as [(-> & Hu & _)|[(-> & ->)|[(-> & Hu & _)|(-> & Hok)]]];
    cbn; (split; [reflexivity|]).
  - right. tauto.
  - right. tauto.
  - right. tauto.
  - left. split; [reflexivity|]. split; [reflexivity|].
    destruct Hok as (form & ve & n & e & p & h & gy & mj & Hreq & Hn & He & Hce
                     & _ & Hgy & Hmj & _ & _ & Hu & _).
    injection Hreq as <-. eexists. split; [exact Hu|].
    rewrite <- He in Hce.
    apply text_column_of_form in Hn, Hce.
    apply nullable_column_of_form in Hgy, Hmj.
    cbn. repeat split; assumption.
Qed.


(** X22.  Submitting the login form never changes the form or the
    accounts.  When the request reaches the route and the response comes
    back, the page either navigates to `/job-board` with the error
    cleared, or stays and shows one of the three messages of the route;
    when the request or the response is lost it stays and shows
    "An unexpected error occurred". *)
Theorem login_page_submit (net : Page.Fetch) (s : LoginPage.State) (w : World) :
  let s' := fst (LoginPage.handleSubmit net s w) in
  let w' := snd (LoginPage.handleSubmit net s w) in
  LoginPage.form s' = LoginPage.form s
  /\ users w' = users w
  /\ match net with
     | Page.Delivered =>
         (LoginPage.pushed s' = LoginPage.pushed s ++ ["/job-board"]
          /\ LoginPage.error s' = Some "")
         \/ (LoginPage.pushed s' = LoginPage.pushed s
             /\ In (LoginPage.error s')
                  [Some "Email and password are required";
                   Some "Invalid credentials"; Some "Server error"])
     | _ =>
         LoginPage.pushed s' = LoginPage.pushed s
         /\ LoginPage.error s' = Some "An unexpected error occurred"
     end.
Proof.
  cbv zeta. unfold LoginPage.handleSubmit, Page.fetch, Page.json_of_form.
  destruct (login_cases (Some (JString <$> LoginPage.form s)) w)
    as (r & w' & Hrun & Hu & _ & _ & _ & _ & Hcase).
  destruct net; rewrite ?Hrun;
    [|repeat split; reflexivity|cbn; repeat split; reflexivity || exact Hu].
  destruct Hcase
    as [->|[(-> & _)|[->|(form & e & p & u & rest & _ & _ & _ & _ & _ & ->)]]];
    cbn [Page.ok status Z.leb Z.compare Pos.compare Pos.compare_cont andb negb
           body Page.data_error List.find fst snd String.eqb Ascii.eqb
           Bool.eqb fmap option_fmap option_map LoginPage.setError
           LoginPage.router_push LoginPage.form LoginPage.error
           LoginPage.pushed];
    (split; [reflexivity|]); (split; [exact Hu|]);
    [right; cbn; tauto..|left; split; reflexivity].
Qed.

(** X23.  The tracer page never changes its query.  When the request
    reaches the route and the response comes back, the page keeps whatever
    body the route answered with as its results and leaves its error
    message alone: after a search that was answered these are the
    matching records, and after one whose query failed they are the error
    object of the 500 response, with no error shown.  Only when the
    request or the response is lost does the page show "Search failed",
    and then it keeps its results. *)
Theorem tracer_page_search
    (net : Page.Fetch) (s : AlumniTracerPage.State) (w : World) :
  let s' := fst (AlumniTracerPage.handleSearch net s w) in
  let term := "%" +:+ AlumniTracerPage.query s +:+ "%" in
  AlumniTracerPage.query s' = AlumniTracerPage.query s
  /\ match net with
     | Page.Delivered =>
         AlumniTracerPage.error s' = AlumniTracerPage.error s
         /\ AlumniTracerPage.results s'
            = if next_fails w
              then JObject [("error", "Failed to fetch alumni data")]
              else JRows (Db.AlumniRows
                            (List.filter (Db.alumni_where term term) (alumni w)))
     | _ =>
         AlumniTracerPage.error s' = "Search failed"
         /\ AlumniTracerPage.results s' = AlumniTracerPage.results s
     end.
Proof.
  cbv zeta. unfold AlumniTracerPage.handleSearch, Page.fetch.
  destruct net; [|repeat split; reflexivity..].
  rewrite GET_run. cbv zeta. rewrite query_or_empty_some.
  destruct (next_fails w); cbn; repeat split; reflexivity.
Qed.

End Pages.

(** ** The registration route between its awaits *)
Section Interleaving.

Context {B : Backend}.

(** The registration route cut at its awaits, run with no other request
    in between, is the route: for every request and every world the
    answer and the world left behind are the same. *)
Lemma register_steps_run_alone (req : RequestBody) (w : World) :
  Async.run (RegisterAsync.POST req) w = Register.POST req w.
Proof.
  unfold RegisterAsync.POST, Register.POST, Async.step, RegisterAsync.guarded.
  cbn [Async.run].
  unfold try_catch, mbind, handler_bind, mret, handler_ret, request_json, throw,
    console_error, tell.
  destruct req as [form|]; [|reflexivity].
  unfold mret, handler_ret, throw. cbn beta iota.
  destruct (falsy (form !! "name") || falsy (form !! "email")
            || falsy (form !! "password")); [reflexivity|].
  cbn [fst snd].
  unfold RegisterAsync.lookup_step, Async.step, RegisterAsync.guarded, try_catch,
    mbind, handler_bind, mret, handler_ret, throw, console_error, tell.
  cbn [Async.run].
  destruct (Db.pool_query "SELECT id FROM users WHERE email = ?" [form !! "email"] w)
    as [[rows|] w1]; [|reflexivity].
  destruct (0 <? Db.length rows)%nat; [reflexivity|].
  cbn [fst snd].
  unfold RegisterAsync.salt_step, Async.step, RegisterAsync.guarded, try_catch,
    Hash.hashPassword, Hash.genSalt,
    mbind, handler_bind, mret, handler_ret, throw, console_error, tell.
  cbn [Async.run fst snd].
  unfold RegisterAsync.hash_step, Async.step, RegisterAsync.guarded, try_catch,
    mbind, handler_bind, mret, handler_ret, throw, console_error, tell.
  cbn [Async.run fst snd].
  destruct (form !! "password") as [[| | |p|]|]; try reflexivity.
  destruct (Hash.bcrypt_hash p _ _) as [[h|] w3]; [|reflexivity].
  cbn [fst snd].
  unfold RegisterAsync.insert_step, Async.step, RegisterAsync.guarded, try_catch,
    mbind, handler_bind, mret, handler_ret, throw, console_error, tell.
  cbn [Async.run fst snd].
  destruct (Db.pool_query _ _ w3) as [[rows2|] w4]; reflexivity.
Qed.
















End Interleaving.

(** ** The further properties on the sample worlds *)

Lemma register_stores_the_account_witness :
  List.filter (Db.email_is (B := Sample.backend) (JString "jane@example.com"))
    (users Sample.world) = []
  /\ exists (h : string) (w' : World),
       Register.POST (B := Sample.backend) (Some Sample.jane) Sample.world
       = (Returned {| status := 201;
                      body := JObject [("message", "Registration successful")];
                      headers := [] |}, w')
       /\ map user_id (users w') = [1]
       /\ auto_increment w' = 2.
Proof.
  split; [reflexivity|].
  destruct (register_stores_the_account (B := Sample.backend) Sample.jane
              "Jane Doe" "jane@example.com" "secure123" (Some "2010")
              (Some "Computer Science") Sample.world)
    as (h & w' & Hrun & _ & Hu & Ha & _); try reflexivity.
  exists h, w'. split; [exact Hrun|]. rewrite Hu, Ha. split; reflexivity.
Defined.


(** The same two registrations on a table with the uniqueness constraint:
    the second is answered with 500 and one account is stored. *)
Example race_under_constraint_is_a_server_error :
  let '(t1, t2, w') :=
    Async.interleave both_look_up_first
      (RegisterAsync.POST (B := Sample.constrained) (Some (Demo.ann "Ann")))
      (RegisterAsync.POST (B := Sample.constrained) (Some (Demo.ann "Anna")))
      Sample.world in
  t1 = Async.Resolved
         {| status := 201;
            body := JObject [("message", "Registration successful")];
            headers := [] |}
  /\ t2 = Async.Resolved
            {| status := 500; body := JObject [("error", "Server error")];
               headers := [] |}
  /\ map user_name (users w') = ["Ann"].
Proof. vm_compute. repeat split; reflexivity. Qed.

(** Run one after the other, the second of the two is answered with 409. *)
Example one_after_the_other_conflicts :
  let '(t1, t2, w') :=
    Async.interleave
      [true; true; true; true; true; false; false; false; false; false]
      (RegisterAsync.POST (B := Sample.backend) (Some (Demo.ann "Ann")))
      (RegisterAsync.POST (B := Sample.backend) (Some (Demo.ann "Anna")))
      Sample.world in
  t2 = Async.Resolved
         {| status := 409; body := JObject [("error", "User already exists")];
            headers := [] |}
  /\ map user_name (users w') = ["Ann"].
Proof. vm_compute. repeat split; reflexivity. Qed.

Lemma login_200_needs_verified_password_witness :
  exists (r : Response) (w' : World),
    Login.POST (B := Sample.backend) (Some (Sample.jane_login "secure123"))
      Sample.registered
    = (Returned r, w')
    /\ status r = 200
    /\ exists (form : gmap string JsValue) (ve : JsValue) (p : string) (u : User)
         (rest : list User),
         Some (Sample.jane_login "secure123") = Some form
         /\ form !! "email" = Some ve
         /\ form !! "password" = Some (JString p)
         /\ List.filter (Db.email_is (B := Sample.backend) ve)
              (users Sample.registered) = u :: rest
         /\ Bcrypt.compare (B := Sample.backend) p (user_password u) = true.
Proof.
  eexists _, _. split; [vm_compute; reflexivity|]. split; [reflexivity|].
  eapply (login_200_needs_verified_password (B := Sample.backend)
            (Some (Sample.jane_login "secure123")) Sample.registered).
  - vm_compute. reflexivity.
  - reflexivity.
Defined.

Lemma login_first_account_decides_witness :
  Bcrypt.compare (B := Sample.backend) "second"
    (user_password (Demo.twin 1 "first")) = false
  /\ Bcrypt.compare (B := Sample.backend) "second"
       (user_password (Demo.twin 2 "second")) = true
  /\ fst (Login.POST (B := Sample.backend) (Some (Demo.twin_login "second"))
            Demo.twins)
     = Returned {| status := 401;
                   body := JObject [("error", "Invalid credentials")];
                   headers := [] |}.
Proof.
  split; [reflexivity|]. split; [reflexivity|].
  apply (login_first_account_decides (B := Sample.backend)
           (Demo.twin_login "second") "twin@example.com" "second" Demo.twins
           (Demo.twin 1 "first") (Demo.twin 2 "second") []);
    reflexivity.
Defined.

Lemma register_then_login_succeeds_witness :
  fst (Login.POST (B := Sample.backend) (Some (Sample.jane_login "secure123"))
         Sample.registered)
  = Returned
      {| status := 200;
         body := JObject [("message", "Login successful")];
         headers :=
           [("Set-Cookie",
             serialize "session_token"
               (Login.session_token (B := Sample.backend)
                  (auto_increment Sample.world) (clock Sample.world)))] |}.
Proof.
  eapply (register_then_login_succeeds (B := Sample.backend) Sample.jane
            (Sample.jane_login "secure123") "jane@example.com" "secure123"
            Sample.world Sample.registered);
    first [ reflexivity
          | intros cost salt password; apply length_fit
          | vm_compute; reflexivity ].
Defined.

Lemma register_twice_conflicts_witness :
  exists w2 : World,
    Register.POST (B := Sample.backend) (Some Sample.jane) Sample.registered
    = (Returned {| status := 409;
                   body := JObject [("error", "User already exists")];
                   headers := [] |}, w2)
    /\ users w2 = users Sample.registered
    /\ auto_increment w2 = auto_increment Sample.registered.
Proof.
  eapply (register_twice_conflicts (B := Sample.backend) Sample.jane
            "jane@example.com" Sample.world Sample.registered);
    first [ reflexivity | vm_compute; reflexivity ].
Defined.

Lemma search_fault_is_500_witness :
  next_fails (Demo.with_faults [true] Sample.world) = true
  /\ fst (AlumniTracer.GET (B := Sample.backend) (Some "Jane")
            (Demo.with_faults [true] Sample.world))
     = Returned {| status := 500;
                   body := JObject [("error", "Failed to fetch alumni data")];
                   headers := [] |}.
Proof.
  split; [reflexivity|].
  apply (search_fault_is_500 (B := Sample.backend)). reflexivity.
Defined.

Lemma search_without_parameter_lists_everyone_witness :
  next_fails Sample.world = false
  /\ fst (AlumniTracer.GET (B := Sample.backend) None Sample.world)
     = Returned {| status := 200;
                   body := JRows (Db.AlumniRows [Sample.jane_doe; Sample.route_2010]);
                   headers := [] |}.
Proof.
  split; [reflexivity|].
  apply (search_without_parameter_lists_everyone (B := Sample.backend) Sample.world).
  reflexivity.
Defined.

Lemma search_underscores_matches_by_length_witness :
  next_fails Sample.world = false
  /\ AlumniTracer.searchAlumni (B := Sample.backend) (LikeEdge.underscores 9)
       Sample.world
     = Some [Sample.route_2010].
Proof.
  split; [reflexivity|].
  apply (search_underscores_matches_by_length (B := Sample.backend) 9 Sample.world).
  reflexivity.
Defined.

Lemma search_trailing_backslash_anchors_witness :
  Like.plain "10" = true
  /\ next_fails Demo.ranked = false
  /\ AlumniTracer.searchAlumni (B := Sample.backend) ("10" +:+ "\") Demo.ranked
     = Some [Demo.top_ten].
Proof.
  split; [reflexivity|]. split; [reflexivity|].
  apply (search_trailing_backslash_anchors (B := Sample.backend) "10" Demo.ranked);
    reflexivity.
Defined.

Lemma session_token_distinguishes_witness :
  safe_integer 12 = true
  /\ safe_integer 1700000000000 = true
  /\ Login.session_token (B := Sample.backend) 1 23
     <> Login.session_token (B := Sample.backend) 12 3
  /\ Login.session_token (B := Sample.backend) 12 1700000000000
     <> Login.session_token (B := Sample.backend) 12 1700000000001.
Proof.
  split; [reflexivity|]. split; [reflexivity|]. split.
  - apply (session_token_distinguishes (B := Sample.backend) 1 12 23 3);
      try reflexivity. left. lia.
  - apply (session_token_distinguishes (B := Sample.backend)
             12 12 1700000000000 1700000000001);
      try reflexivity. right. lia.
Defined.

(** Without the hyphen the two pairs below would give the same text. *)
Example session_tokens_differ :
  Login.session_token (B := Sample.backend) 1 23 = "1-23"
  /\ Login.session_token (B := Sample.backend) 12 3 = "12-3".
Proof. split; reflexivity. Qed.

Lemma register_failed_insert_stores_nothing_witness :
  fails_at 1 (Demo.with_faults [false; true] Sample.world) = true
  /\ exists (h : string) (w' : World),
       Register.POST (B := Sample.backend) (Some Sample.jane)
         (Demo.with_faults [false; true] Sample.world)
       = (Returned {| status := 500;
                      body := JObject [("error", "Server error")];
                      headers := [] |}, w')
       /\ users w' = []
       /\ random w' = [67890].
Proof.
  split; [reflexivity|].
  destruct (register_failed_insert_stores_nothing (B := Sample.backend)
              Sample.jane "Jane Doe" "jane@example.com" "secure123"
              (Demo.with_faults [false; true] Sample.world))
    as (h & w' & Hrun & Hu & _ & Hr & _); try reflexivity.
  exists h, w'. split; [exact Hrun|]. rewrite Hu, Hr. split; reflexivity.
Defined.

Lemma server_errors_leave_the_store_witness :
  next_fails (Demo.with_faults [true] Sample.registered) = true
  /\ exists w' : World,
       Login.POST (B := Sample.backend) (Some (Sample.jane_login "secure123"))
         (Demo.with_faults [true] Sample.registered)
       = (Returned {| status := 500;
                      body := JObject [("error", "Server error")];
                      headers := [] |}, w')
       /\ users w' = users Sample.registered.
Proof.
  split; [reflexivity|].
  destruct (server_errors_leave_the_store (B := Sample.backend)
              (Sample.jane_login "secure123")
              (Demo.with_faults [true] Sample.registered))
    as (_ & _ & _ & Hlogin).
  destruct Hlogin as (w' & Hrun & Hu & _); try reflexivity.
  exists w'. split; [exact Hrun|exact Hu].
Defined.

Lemma routes_always_answer_witness :
  exists (r : Response) (w' : World),
    Register.POST (B := Sample.backend) None Sample.world = (Returned r, w')
    /\ In (status r) [201; 400; 409; 500].
Proof.
  destruct (routes_always_answer (B := Sample.backend) None None Sample.world)
    as ((r & w' & Hrun & Hst & _) & _).
  exists r, w'. split; assumption.
Defined.


(** The blank optional inputs are bound as empty strings. *)
Example page_registration_stores_empty_strings :
  let s :=
    fold_left (fun s kv => RegisterPage.handleChange (fst kv) (snd kv) s)
      [("name", "Ann"); ("email", "ann@example.com"); ("password", "pw")]
      RegisterPage.initial in
  map (fun u => (user_name u, user_graduation_year u, user_major u))
    (users (snd (RegisterPage.handleSubmit (B := Sample.backend) Page.Delivered s
                   Sample.world)))
  = [("Ann", Some "", Some "")].
Proof. vm_compute. reflexivity. Qed.

(** A response lost on the way back: the page reports a failure although
    the account was stored. *)
Example lost_response_hides_a_stored_account :
  let s :=
    fold_left (fun s kv => RegisterPage.handleChange (fst kv) (snd kv) s)
      [("name", "Ann"); ("email", "ann@example.com"); ("password", "pw")]
      RegisterPage.initial in
  let out := RegisterPage.handleSubmit (B := Sample.backend) Page.ResponseLost s
               Sample.world in
  RegisterPage.error (fst out) = Some "An unexpected error occurred"
  /\ RegisterPage.pushed (fst out) = []
  /\ map user_name (users (snd out)) = ["Ann"].
Proof. vm_compute. repeat split; reflexivity. Qed.
